(** * CN616A log viewer: ingestion of the JSONL log into per-zone state

    A shallow embedding of [cn616a_live_plot_new.py]: the per-zone record
    [ZoneSeries], the line ingestion [_ingest_line], the full load of
    [open_log] and the tailing of [_tail_tick], with the properties of the
    design document stated over them.

    Conventions.
    - Text is a [string] holding the UTF-8 bytes of the Python [str]. A
      file is its bytes; [open_log] and [_tail_tick] are given bytes that
      decode, and [tick_on_bytes] is the tick whose read may fail to
      decode them.
    - A decoded JSON value is a [PyVal]; Python's [None] is [PNone].
    - A Python call that raises an exception the caller catches is an
      [option] that is [None]; [_ingest_line], which lets some exceptions
      escape, returns an [outcome].
    - The library calls whose result depends on the interpreter
      ([json.loads], [float] and [int] of a [str], the digits of [\d], the
      [datetime] constructors) are the fields of the class [PyRuntime]; the
      theorems about the code hold for every runtime.
      [RefRuntime] is an executable instance, used to run the code on
      concrete log lines.
    - The tkinter widgets (tabs, redraws, the status bar) are left out; what
      remains of a redraw is the set of zones it is asked for. *)

From Stdlib Require Import ZArith String Ascii List Bool Lia.
From Stdlib Require Import PrimFloat FloatOps SpecFloat.
From stdpp Require Import gmap.

Import ListNotations.
Local Set Warnings "-register-all,-inexact-float".
Local Open Scope string_scope.

(** ** Text *)

Module Text.

Definition code (c : ascii) : N := N_of_ascii c.

(** [js s] is [s] with every apostrophe replaced by a double quote, so
    that JSON text can be written down legibly. *)
Fixpoint js (s : string) : string :=
  match s with
  | EmptyString => EmptyString
  | String c r => String (if Ascii.eqb c "'" then "034"%char else c) (js r)
  end.

Fixpoint rev_acc (s acc : string) : string :=
  match s with
  | EmptyString => acc
  | String c r => rev_acc r (String c acc)
  end.

Definition rev (s : string) : string := rev_acc s EmptyString.

Definition bytes (l : list N) : string :=
  string_of_list_ascii (List.map ascii_of_N l).

(** [drop_prefix p s]: the rest of [s] after its prefix [p], if it has it. *)
Fixpoint drop_prefix (p s : string) : option string :=
  match p, s with
  | EmptyString, _ => Some s
  | String a p', String b s' => if Ascii.eqb a b then drop_prefix p' s' else None
  | String _ _, EmptyString => None
  end.

Fixpoint drop_first_of (ps : list string) (s : string) : option string :=
  match ps with
  | [] => None
  | p :: ps' =>
      match drop_prefix p s with
      | Some r => Some r
      | None => drop_first_of ps' s
      end
  end.

(** The characters for which [str.isspace] holds, UTF-8 encoded:
    U+0009..U+000D, U+001C..U+0020, U+0085, U+00A0, U+1680,
    U+2000..U+200A, U+2028, U+2029, U+202F, U+205F, U+3000. *)
Definition whitespace : list string :=
  List.map bytes
    [ [9]; [10]; [11]; [12]; [13]; [28]; [29]; [30]; [31]; [32];
      [194; 133]; [194; 160]; [225; 154; 128];
      [226; 128; 128]; [226; 128; 129]; [226; 128; 130]; [226; 128; 131];
      [226; 128; 132]; [226; 128; 133]; [226; 128; 134]; [226; 128; 135];
      [226; 128; 136]; [226; 128; 137]; [226; 128; 138];
      [226; 128; 168]; [226; 128; 169]; [226; 128; 175];
      [226; 129; 159]; [227; 128; 128] ]%N.

Fixpoint drop_while_first_of (fuel : nat) (ps : list string) (s : string) : string :=
  match fuel with
  | O => s
  | S fuel' =>
      match drop_first_of ps s with
      | Some r => drop_while_first_of fuel' ps r
      | None => s
      end
  end.

(** [str.lstrip], [str.rstrip] and [str.strip] with no argument. *)
Definition lstrip (s : string) : string :=
  drop_while_first_of (String.length s) whitespace s.

Definition rstrip (s : string) : string :=
  rev (drop_while_first_of (String.length s) (List.map rev whitespace) (rev s)).

Definition strip (s : string) : string := rstrip (lstrip s).

(** [needle in hay]. *)
Fixpoint contains (needle hay : string) : bool :=
  match drop_prefix needle hay with
  | Some _ => true
  | None =>
      match hay with
      | EmptyString => false
      | String _ r => contains needle r
      end
  end.

Definition is_digit (c : ascii) : bool := ((48 <=? code c) && (code c <=? 57))%N.

Fixpoint take_digits (s : string) : string :=
  match s with
  | String c r => if is_digit c then String c (take_digits r) else EmptyString
  | EmptyString => EmptyString
  end.

Fixpoint drop_digits (s : string) : string :=
  match s with
  | String c r => if is_digit c then drop_digits r else s
  | EmptyString => EmptyString
  end.

Definition digit_value (c : ascii) : Z := Z.of_N (code c) - 48.

Fixpoint digits_acc (acc : Z) (s : string) : Z :=
  match s with
  | EmptyString => acc
  | String c r => digits_acc (10 * acc + digit_value c) r
  end.

(** The number a string of ASCII digits spells. *)
Definition int_of_digits (s : string) : Z := digits_acc 0 s.

(** [f.readlines()] and [for line in f] on a text-mode file: the lines
    of [s], each with its terminator; [\r\n] and [\r] end a line too and
    are read as [\n] (universal newlines). [cur] is the line being read,
    reversed. *)
Fixpoint lines_acc (cur s : string) : list string :=
  match s with
  | EmptyString =>
      match cur with
      | EmptyString => []
      | _ => [rev cur]
      end
  | String c r =>
      if Ascii.eqb c "010" then rev (String "010" cur) :: lines_acc EmptyString r
      else if Ascii.eqb c "013" then
        match r with
        | String c' r' =>
            if Ascii.eqb c' "010"
            then rev (String "010" cur) :: lines_acc EmptyString r'
            else rev (String "010" cur) :: lines_acc EmptyString r
        | EmptyString => [rev (String "010" cur)]
        end
      else lines_acc (String c cur) r
  end.

Definition readlines (s : string) : list string := lines_acc EmptyString s.

Definition newline : string := String "010"%char EmptyString.

(** The first [n] bytes of the text. *)
Fixpoint take (n : nat) (s : string) : string :=
  match n, s with
  | S n', String c r => String c (take n' r)
  | _, _ => EmptyString
  end.

(** The text from offset [n] on. *)
Fixpoint skip (n : nat) (s : string) : string :=
  match n, s with
  | O, _ => s
  | S n', String _ r => skip n' r
  | S _, EmptyString => EmptyString
  end.

(** A continuation byte of UTF-8. *)
Definition is_continuation (n : N) : bool := ((128 <=? n) && (n <=? 191))%N.

(** The byte that may follow the lead byte [n0] of a sequence of three or
    of four bytes: no overlong form, no surrogate, nothing above
    U+10FFFF. *)
Definition follows_lead (n0 n1 : N) : bool :=
  (if n0 =? 224 then (160 <=? n1) && (n1 <=? 191)
   else if n0 =? 237 then (128 <=? n1) && (n1 <=? 159)
   else if n0 =? 240 then (144 <=? n1) && (n1 <=? 191)
   else if n0 =? 244 then (128 <=? n1) && (n1 <=? 143)
   else is_continuation n1)%N.

(** Whether the bytes decode under [encoding="utf-8"] with strict errors:
    a file opened that way raises [UnicodeDecodeError] on a read that
    meets bytes that do not, a sequence cut short by the end of the file
    included. *)
Fixpoint utf8_valid (s : string) : bool :=
  match s with
  | EmptyString => true
  | String b0 r0 =>
      let n0 := code b0 in
      if (n0 <? 128)%N then utf8_valid r0
      else
        match r0 with
        | EmptyString => false
        | String b1 r1 =>
            let n1 := code b1 in
            if ((194 <=? n0) && (n0 <=? 223))%N
            then is_continuation n1 && utf8_valid r1
            else
              match r1 with
              | EmptyString => false
              | String b2 r2 =>
                  let n2 := code b2 in
                  if ((224 <=? n0) && (n0 <=? 239))%N
                  then follows_lead n0 n1 && is_continuation n2 && utf8_valid r2
                  else
                    match r2 with
                    | EmptyString => false
                    | String b3 r3 =>
                        ((240 <=? n0) && (n0 <=? 244))%N
                        && follows_lead n0 n1 && is_continuation n2
                        && is_continuation (code b3) && utf8_valid r3
                    end
              end
        end
  end.

End Text.

(** ** Python values *)

(** What [json.loads] can return: [None], [bool], [int], [float], [str],
    [list] and [dict]. A [dict] is the list of its items; a key is looked
    up from the front. *)
Inductive PyVal : Type :=
| PNone
| PBool (b : bool)
| PInt (n : Z)
| PFloat (x : float)
| PStr (s : string)
| PList (l : list PyVal)
| PDict (d : list (string * PyVal)).

Fixpoint dict_lookup (k : string) (d : list (string * PyVal)) : option PyVal :=
  match d with
  | [] => None
  | (k', v) :: d' => if String.eqb k' k then Some v else dict_lookup k d'
  end.

(** [obj.get(k, dflt)] and [obj.get(k)]. *)
Definition dict_get_or (k : string) (dflt : PyVal) (d : list (string * PyVal)) : PyVal :=
  match dict_lookup k d with
  | Some v => v
  | None => dflt
  end.

Definition dict_get (k : string) (d : list (string * PyVal)) : PyVal :=
  dict_get_or k PNone d.

(** [bool(v)]: the truth value that [or] tests. *)
Definition truthy (v : PyVal) : bool :=
  match v with
  | PNone => false
  | PBool b => b
  | PInt n => negb (n =? 0)%Z
  | PFloat x => negb (PrimFloat.eqb x 0)
  | PStr s => negb (String.eqb s "")
  | PList l => match l with [] => false | _ => true end
  | PDict d => match d with [] => false | _ => true end
  end.

(** [a or b]. *)
Definition py_or (a b : PyVal) : PyVal := if truthy a then a else b.

(** [v is None]. *)
Definition is_None (v : PyVal) : bool :=
  match v with
  | PNone => true
  | _ => false
  end.

(** [v == s] for a [str] literal [s]. *)
Definition eq_str (v : PyVal) (s : string) : bool :=
  match v with
  | PStr s' => String.eqb s' s
  | _ => false
  end.

(** [isinstance(v, int)], with the integer when it holds; [bool] is a
    subclass of [int], and [True] and [False] are the dict keys 1 and 0. *)
Definition isinstance_int (v : PyVal) : option Z :=
  match v with
  | PInt n => Some n
  | PBool b => Some (if b then 1 else 0)%Z
  | _ => None
  end.

Definition is_nan (x : PyVal) : bool :=
  match x with
  | PNone => true
  | PFloat f => negb (PrimFloat.eqb f f)
  | _ => false
  end.

(** [float(n)] for an [int]: the nearest double, ties to even;
    [OverflowError] when that is not finite. *)
Definition float_of_int (n : Z) : option float :=
  let x := SF2Prim (binary_normalize prec emax n 0 false) in
  if PrimFloat.is_infinity x then None else Some x.

(** ** The interpreter's libraries *)

Class PyRuntime : Type := {
  (** [json.loads(s)]; [None] when it raises. *)
  json_loads : string -> option PyVal;
  (** [float(s)] for a [str]; [None] when it raises [ValueError]. *)
  float_of_str : string -> option float;
  (** [int(s)] for a [str]; [None] when it raises [ValueError]. *)
  int_of_str : string -> option Z;
  (** The number of bytes of the decimal digit at the front of the text,
      0 if it does not start with one: the characters [\d] matches, which
      are those of category Nd in the interpreter's Unicode tables. *)
  decimal_prefix : string -> nat;
  datetime : Type;
  tzinfo : Type;
  (** [ZoneInfo("America/Los_Angeles")], or [None] without [zoneinfo]. *)
  LOCAL_TZ : option tzinfo;
  (** [datetime.fromtimestamp(x, tz=timezone.utc)]. *)
  fromtimestamp_utc : float -> option datetime;
  (** [dt.astimezone(tz)]; [tz=None] is the system's local zone. *)
  astimezone : datetime -> option tzinfo -> option datetime;
  (** [datetime.fromisoformat(s)]. *)
  fromisoformat : string -> option datetime
}.

(** What a call of [_ingest_line] ends in: a returned [Optional[int]], or
    an exception that escapes it. *)
Inductive outcome : Type :=
| Returns (z : option Z)
| Raises.

(** What [open_log] reports on the status bar. *)
Inductive load_report : Type :=
| FileNotFound
| FailedToRead
| Opened (n_lines n_tel : nat).

Definition DEFAULT_ZONES : list Z := [1; 2; 3; 4; 5; 6]%Z.

(** The text [open_log] and [_tail_tick] look for: ["type": "telemetry"]. *)
Definition telemetry_marker : string := Text.js "'type': 'telemetry'".

(** ** The viewer's state and its operations *)

Section Viewer.

Context {rt : PyRuntime}.

(** The longest run of decimal digits at the front of the text: [\d+],
    or the empty text where it does not match. *)
Fixpoint take_decimals (fuel : nat) (s : string) : string :=
  match fuel with
  | O => EmptyString
  | S fuel' =>
      match decimal_prefix s with
      | O => EmptyString
      | n => (Text.take n s ++ take_decimals fuel' (Text.skip n s))%string
      end
  end.

(** The pattern ["zone"\s*:\s*(\d+)] matched at the front of the text,
    giving group 1; [\s] is the white space of [str.isspace]. *)
Definition match_zone_at (s : string) : option string :=
  match Text.drop_prefix (Text.js "'zone'") s with
  | None => None
  | Some r1 =>
      match Text.drop_prefix ":" (Text.lstrip r1) with
      | None => None
      | Some r2 =>
          let r3 := Text.lstrip r2 in
          match take_decimals (String.length r3) r3 with
          | EmptyString => None
          | ds => Some ds
          end
      end
  end.

(** [re.search(r'"zone"\s*:\s*(\d+)', line)], giving [m.group(1)]: the
    match at the leftmost place that has one. *)
Fixpoint search_zone (s : string) : option string :=
  match match_zone_at s with
  | Some ds => Some ds
  | None =>
      match s with
      | EmptyString => None
      | String _ r => search_zone r
      end
  end.

(** The [# fast zone guess] of [_tail_tick]: [z_guess]. *)
Definition zone_guess (line : string) : option Z :=
  if Text.contains telemetry_marker line then
    match search_zone line with
    | Some ds => int_of_str ds
    | None => None
    end
  else None.

(** The dataclass [ZoneSeries]. The [last_*] attributes are typed [Any] (or
    [str], unenforced): they hold whatever the log line held. [zone] is the
    integer the record was made for ([True] as 1). *)
Record ZoneSeries : Type := mkZoneSeries {
  zone : Z;
  t : list datetime;
  pv : list float;
  last_pv : PyVal;
  last_sp : PyVal;
  last_out : PyVal;
  last_method : PyVal;
  last_mode : PyVal;
  last_autotune : PyVal;
  last_autotune_sp : PyVal
}.

Definition placeholder : PyVal := PStr "—".

(** [ZoneSeries(zone=z)]. *)
Definition new_ZoneSeries (z : Z) : ZoneSeries :=
  {| zone := z; t := []; pv := [];
     last_pv := PNone; last_sp := PNone; last_out := PNone;
     last_method := placeholder; last_mode := placeholder;
     last_autotune := PNone; last_autotune_sp := PNone |}.

(** [ZoneSeries.clear_trace]. *)
Definition clear_trace (s : ZoneSeries) : ZoneSeries :=
  {| zone := zone s; t := []; pv := [];
     last_pv := last_pv s; last_sp := last_sp s; last_out := last_out s;
     last_method := last_method s; last_mode := last_mode s;
     last_autotune := last_autotune s;
     last_autotune_sp := last_autotune_sp s |}.

(** The body of the reset loop of [open_log]. *)
Definition reset_zone (s : ZoneSeries) : ZoneSeries :=
  let s := clear_trace s in
  {| zone := zone s; t := t s; pv := pv s;
     last_pv := PNone; last_sp := PNone; last_out := PNone;
     last_method := placeholder; last_mode := placeholder;
     last_autotune := PNone; last_autotune_sp := PNone |}.

(** [s.last_autotune_sp = sp]. *)
Definition set_last_autotune_sp (sp : PyVal) (s : ZoneSeries) : ZoneSeries :=
  {| zone := zone s; t := t s; pv := pv s;
     last_pv := last_pv s; last_sp := last_sp s; last_out := last_out s;
     last_method := last_method s; last_mode := last_mode s;
     last_autotune := last_autotune s;
     last_autotune_sp := sp |}.

(** [epoch_to_dt_local]; its argument is already a [float], on which its
    own [float(...)] is the identity. *)
Definition epoch_to_dt_local (t_epoch_s : float) : option datetime :=
  match fromtimestamp_utc t_epoch_s with
  | None => None
  | Some dt_utc =>
      match LOCAL_TZ with
      | Some tz => astimezone dt_utc (Some tz)
      | None => astimezone dt_utc None
      end
  end.

(** [float(v)]; [None] when it raises ([TypeError], [ValueError],
    [OverflowError]). *)
Definition py_float (v : PyVal) : option float :=
  match v with
  | PFloat x => Some x
  | PInt n => float_of_int n
  | PBool b => Some (if b then 1%float else 0%float)
  | PStr s => float_of_str s
  | PNone | PList _ | PDict _ => None
  end.

(** The [# time] block of [_ingest_line]: the [dt] it binds, or [None]
    where it leaves through one of its three [return z]. *)
Definition line_dt (obj : list (string * PyVal)) : option datetime :=
  let t_epoch := dict_get "t_epoch_s" obj in
  if is_None t_epoch then
    match dict_get "ts" obj with
    | PStr ts => fromisoformat ts
    | _ => None
    end
  else
    match py_float t_epoch with
    | Some x => epoch_to_dt_local x
    | None => None
    end.

(** [pv_val = None if is_nan(pv) else float(pv)]; the outer [None] is the
    exception of [float(pv)], which nothing in [_ingest_line] catches. *)
Definition line_pv_val (pv : PyVal) : option (option float) :=
  if is_nan pv then Some None
  else
    match py_float pv with
    | Some x => Some (Some x)
    | None => None
    end.

(** The event path's [sp]. *)
Definition event_sp (obj : list (string * PyVal)) : PyVal :=
  py_or (dict_get "autotune_sp_c" obj)
    (py_or (dict_get "autotune_setpoint_c" obj)
       (py_or (dict_get "autotune_setpoint" obj)
          (py_or (dict_get "sp" obj) (dict_get "setpoint" obj)))).

(** The telemetry path's new [last_autotune_sp]. *)
Definition telemetry_sp (obj : list (string * PyVal)) (prev : PyVal) : PyVal :=
  py_or (dict_get "autotune_sp_c" obj)
    (py_or (dict_get "autotune_setpoint_c" obj)
       (py_or (dict_get "autotune_setpoint" obj) prev)).

(** The tail of [_ingest_line], from [# Append PV trace] on, on the zone's
    record [s]. *)
Definition record_telemetry (obj : list (string * PyVal)) (dt : datetime)
    (pv_val : option float) (s : ZoneSeries) : ZoneSeries :=
  {| zone := zone s;
     t := match pv_val with Some _ => t s ++ [dt] | None => t s end;
     pv := match pv_val with Some x => pv s ++ [x] | None => pv s end;
     last_pv := dict_get "pv_c" obj;
     last_sp := dict_get "sp_abs_c" obj;
     last_out := dict_get "output_pct" obj;
     last_method := dict_get_or "method" placeholder obj;
     last_mode := dict_get_or "mode" placeholder obj;
     last_autotune := dict_get_or "autotune" PNone obj;
     last_autotune_sp := telemetry_sp obj (last_autotune_sp s) |}.

(** [_ensure_zone], on [series_by_zone]; the tab it adds goes with the
    zone's record and is not kept apart. *)
Definition _ensure_zone (z : Z) (series_by_zone : gmap Z ZoneSeries) : gmap Z ZoneSeries :=
  match series_by_zone !! z with
  | Some _ => series_by_zone
  | None => <[z := new_ZoneSeries z]> series_by_zone
  end.

(** [_ingest_line]: the new [series_by_zone] and how the call ends. A
    decoded value that is not a [dict] has no [get]: [AttributeError]. *)
Definition _ingest_line (series_by_zone : gmap Z ZoneSeries) (line : string)
  : gmap Z ZoneSeries * outcome :=
  let line := Text.strip line in
  if String.eqb line "" then (series_by_zone, Returns None)
  else
    match json_loads line with
    | None => (series_by_zone, Returns None)
    | Some (PDict obj) =>
        let typ := dict_get "type" obj in
        if eq_str typ "event" then
          match isinstance_int (dict_get "zone" obj) with
          | Some z =>
              let series_by_zone := _ensure_zone z series_by_zone in
              let sp := event_sp obj in
              if negb (is_None sp)
              then (alter (set_last_autotune_sp sp) z series_by_zone, Returns None)
              else (series_by_zone, Returns None)
          | None => (series_by_zone, Returns None)
          end
        else if negb (eq_str typ "telemetry") then (series_by_zone, Returns None)
        else
          match isinstance_int (dict_get "zone" obj) with
          | None => (series_by_zone, Returns None)
          | Some z =>
              let series_by_zone := _ensure_zone z series_by_zone in
              match line_dt obj with
              | None => (series_by_zone, Returns (Some z))
              | Some dt =>
                  match line_pv_val (dict_get "pv_c" obj) with
                  | None => (series_by_zone, Raises)
                  | Some pv_val =>
                      (alter (record_telemetry obj dt pv_val) z series_by_zone,
                       Returns (Some z))
                  end
              end
          end
    | Some _ => (series_by_zone, Raises)
    end.

(** [ZoneTab.on_clear] of the tab of zone [z], whose [series] is the
    object [series_by_zone[z]]. *)
Definition on_clear (z : Z) (series_by_zone : gmap Z ZoneSeries) : gmap Z ZoneSeries :=
  alter clear_trace z series_by_zone.

(** The loop [# Reset series & last-known values] of [open_log]. *)
Definition reset_all (series_by_zone : gmap Z ZoneSeries) : gmap Z ZoneSeries :=
  reset_zone <$> series_by_zone.

(** The attributes of [CN616ALogViewer] that ingestion reads and writes.
    [_tail_fp] is the path of the file it is open on; the text of that
    file is an argument of the operations that read it. *)
Record Viewer : Type := mkViewer {
  series_by_zone : gmap Z ZoneSeries;
  current_log_path : option string;
  _tail_fp : option string;
  _tail_pos : nat
}.

(** The state [__init__] sets up before it opens a log. *)
Definition initial_series : gmap Z ZoneSeries :=
  list_to_map (List.map (fun z => (z, new_ZoneSeries z)) DEFAULT_ZONES).

Definition initial_viewer : Viewer :=
  {| series_by_zone := initial_series; current_log_path := None;
     _tail_fp := None; _tail_pos := 0 |}.

(** The loop [for line in f] of [open_log], with its two counters; [None]
    when a line raises, which ends the loop in [except Exception]. *)
Fixpoint load_lines (sbz : gmap Z ZoneSeries) (n_lines n_tel : nat)
    (lines : list string) : gmap Z ZoneSeries * option (nat * nat) :=
  match lines with
  | [] => (sbz, Some (n_lines, n_tel))
  | line :: rest =>
      let n_lines := S n_lines in
      let n_tel := if Text.contains telemetry_marker line then S n_tel else n_tel in
      match _ingest_line sbz line with
      | (sbz', Raises) => (sbz', None)
      | (sbz', Returns _) => load_lines sbz' n_lines n_tel rest
      end
  end.

(** [open_log(path)] up to the redraw of the tabs; [file] is the text of
    the file at [path], [None] if there is no such file. The file decodes
    as UTF-8, reading and reopening it do not fail, and it does not grow
    while it is being opened. The report is the status [open_log] sets
    when the redraw of lines 328-330, which is outside the [try] and is
    not modelled, does not raise; the state is the one that redraw is
    given. *)
Definition open_log (path : string) (file : option string) (v : Viewer)
  : Viewer * load_report :=
  match file with
  | None => (v, FileNotFound)
  | Some content =>
      match load_lines (reset_all (series_by_zone v)) 0 0 (Text.readlines content) with
      | (sbz, None) =>
          ({| series_by_zone := sbz; current_log_path := Some path;
              _tail_fp := None; _tail_pos := 0 |}, FailedToRead)
      | (sbz, Some (n_lines, n_tel)) =>
          ({| series_by_zone := sbz; current_log_path := Some path;
              _tail_fp := Some path; _tail_pos := String.length content |},
           Opened n_lines n_tel)
      end
  end.

(** The loop [for line in new_lines] of [_tail_tick]; [None] when a line
    raises, which leaves the loop for [except Exception] before any tab is
    redrawn. *)
Fixpoint tail_lines (sbz : gmap Z ZoneSeries) (zones_touched : gset Z)
    (new_lines : list string) : gmap Z ZoneSeries * option (gset Z) :=
  match new_lines with
  | [] => (sbz, Some zones_touched)
  | line :: rest =>
      let z_guess := zone_guess line in
      match _ingest_line sbz line with
      | (sbz', Raises) => (sbz', None)
      | (sbz', Returns (Some z)) => tail_lines sbz' ({[z]} ∪ zones_touched) rest
      | (sbz', Returns None) =>
          match z_guess with
          | Some g => tail_lines sbz' ({[g]} ∪ zones_touched) rest
          | None => tail_lines sbz' zones_touched rest
          end
      end
  end.

(** [_tail_tick] once its read has succeeded; [content] is the text of the
    tailed file when the tick runs, and what follows the cursor decodes as
    UTF-8 ([tick_on_bytes] below has the read that raises). The result is
    [zones_touched], the zones whose tab (if they have one) the tick
    redraws, or [None] for a tick that ends in [Tailing error] because a
    line raised; the redraws themselves are not modelled. *)
Definition _tail_tick (content : string) (v : Viewer) : Viewer * option (gset Z) :=
  match _tail_fp v, current_log_path v with
  | Some fp, Some path =>
      match Text.readlines (Text.skip (_tail_pos v) content) with
      | [] => (v, Some ∅)
      | new_lines =>
          let (sbz, touched) := tail_lines (series_by_zone v) ∅ new_lines in
          ({| series_by_zone := sbz; current_log_path := Some path;
              _tail_fp := Some fp; _tail_pos := String.length content |},
           touched)
      end
  | _, _ => (v, Some ∅)
  end.

(** The operations that change a zone's record. *)
Inductive operation : Type :=
| Ingest (line : string)
| ClearTrace (z : Z)
| ResetAll.

Definition run (sbz : gmap Z ZoneSeries) (o : operation) : gmap Z ZoneSeries :=
  match o with
  | Ingest line => fst (_ingest_line sbz line)
  | ClearTrace z => on_clear z sbz
  | ResetAll => reset_all sbz
  end.

Definition run_all (sbz : gmap Z ZoneSeries) (os : list operation) : gmap Z ZoneSeries :=
  fold_left run os sbz.

(** The record of zone [z] as a reader sees it: the one in
    [series_by_zone], or the one [_ensure_zone] would make. *)
Definition zone_state (sbz : gmap Z ZoneSeries) (z : Z) : ZoneSeries :=
  match sbz !! z with
  | Some s => s
  | None => new_ZoneSeries z
  end.

(** ** The vocabulary of the properties *)

(** What [_ingest_line] decodes a line to: the [obj] it binds, [None]
    where it returns before binding one (an empty line after [strip], or
    text [json.loads] refuses). *)
Definition decoded (line : string) : option PyVal :=
  let line := Text.strip line in
  if String.eqb line "" then None else json_loads line.

(** A line that decodes to the object [obj], of type [telemetry], with the
    integer zone [z]. *)
Definition telemetry_message (line : string) (obj : list (string * PyVal)) (z : Z) : Prop :=
  decoded line = Some (PDict obj) /\
  eq_str (dict_get "type" obj) "telemetry" = true /\
  isinstance_int (dict_get "zone" obj) = Some z.

(** The same for type [event]. *)
Definition event_message (line : string) (obj : list (string * PyVal)) (z : Z) : Prop :=
  decoded line = Some (PDict obj) /\
  eq_str (dict_get "type" obj) "event" = true /\
  isinstance_int (dict_get "zone" obj) = Some z.

(** A line that is no message: it does not decode, or it decodes to an
    object whose [type] is neither [telemetry] nor [event]. *)
Definition unrecognised (line : string) : Prop :=
  decoded line = None \/
  exists obj, decoded line = Some (PDict obj) /\
    eq_str (dict_get "type" obj) "telemetry" = false /\
    eq_str (dict_get "type" obj) "event" = false.

(** The keys the event path reads the autotune setpoint from, in the order
    of its [or] chain. *)
Definition event_aliases : list string :=
  ["autotune_sp_c"; "autotune_setpoint_c"; "autotune_setpoint"; "sp"; "setpoint"].

(** The trace of a zone is two lists of one length. *)
Definition aligned (s : ZoneSeries) : Prop :=
  List.length (t s) = List.length (pv s).

Definition all_aligned (sbz : gmap Z ZoneSeries) : Prop :=
  forall z s, sbz !! z = Some s -> aligned s.

(** A viewer that is tailing a file. *)
Definition tailing (v : Viewer) : Prop :=
  _tail_fp v <> None /\ current_log_path v <> None.

End Viewer.

(** ** The scenario of the design document *)

Definition scenario_line1 : string :=
  Text.js "{'type':'telemetry','zone':1,'t_epoch_s':1700000000,'pv_c':72.5,'sp_abs_c':75.0,'output_pct':40.0,'method':'PID','mode':'AUTO','autotune':false}".

Definition scenario_line2 : string :=
  Text.js "{'type':'telemetry','zone':1,'t_epoch_s':1700000010,'pv_c':73.1,'sp_abs_c':75.0,'output_pct':38.0,'method':'PID','mode':'AUTO','autotune':false}".

Definition scenario_line3 : string :=
  Text.js "{'type':'event','zone':1,'autotune_setpoint_c':80.0}".

Definition scenario_obj1 : list (string * PyVal) :=
  [("type", PStr "telemetry"); ("zone", PInt 1); ("t_epoch_s", PInt 1700000000);
   ("pv_c", PFloat 72.5); ("sp_abs_c", PFloat 75); ("output_pct", PFloat 40);
   ("method", PStr "PID"); ("mode", PStr "AUTO"); ("autotune", PBool false)].

Definition scenario_obj2 : list (string * PyVal) :=
  [("type", PStr "telemetry"); ("zone", PInt 1); ("t_epoch_s", PInt 1700000010);
   ("pv_c", PFloat 73.1); ("sp_abs_c", PFloat 75); ("output_pct", PFloat 38);
   ("method", PStr "PID"); ("mode", PStr "AUTO"); ("autotune", PBool false)].

Definition scenario_obj3 : list (string * PyVal) :=
  [("type", PStr "event"); ("zone", PInt 1); ("autotune_setpoint_c", PFloat 80)].

(** ** Sample lines *)

(** A telemetry line without [t_epoch_s] and [ts]. *)
Definition untimed_line : string :=
  Text.js "{'type': 'telemetry', 'zone': 1, 'pv_c': 72.5, 'sp_abs_c': 75.0, 'mode': 'AUTO'}".

Definition untimed_obj : list (string * PyVal) :=
  [("type", PStr "telemetry"); ("zone", PInt 1); ("pv_c", PFloat 72.5);
   ("sp_abs_c", PFloat 75); ("mode", PStr "AUTO")].

(** A telemetry line whose [pv_c] is NaN. *)
Definition nan_line : string :=
  Text.js "{'type': 'telemetry', 'zone': 2, 't_epoch_s': 1700000000, 'pv_c': NaN, 'sp_abs_c': 75.0, 'output_pct': null, 'method': 'PID', 'autotune': true}".

Definition nan_obj : list (string * PyVal) :=
  [("type", PStr "telemetry"); ("zone", PInt 2); ("t_epoch_s", PInt 1700000000);
   ("pv_c", PFloat nan); ("sp_abs_c", PFloat 75); ("output_pct", PNone);
   ("method", PStr "PID"); ("autotune", PBool true)].

(** Telemetry lines that give the autotune setpoint under two aliases, the
    first of them 5 or 0. *)
Definition aliases_5_9_line : string :=
  Text.js "{'type': 'telemetry', 'zone': 1, 't_epoch_s': 1700000000, 'pv_c': 72.5, 'autotune_sp_c': 5, 'autotune_setpoint': 9}".

Definition aliases_0_9_line : string :=
  Text.js "{'type': 'telemetry', 'zone': 1, 't_epoch_s': 1700000000, 'pv_c': 72.5, 'autotune_sp_c': 0, 'autotune_setpoint': 9}".

Definition alias_0_line : string :=
  Text.js "{'type': 'telemetry', 'zone': 1, 't_epoch_s': 1700000010, 'pv_c': 72.5, 'autotune_sp_c': 0}".

Definition alias_0_event : string :=
  Text.js "{'type': 'event', 'zone': 1, 'autotune_sp_c': 0}".

(** A telemetry line cut short by the writer, before and after its zone. *)
Definition cut_line : string :=
  Text.js "{'type': 'telemetry', 'zone': 3, 'pv_c': 7".

Definition cut_before_zone : string :=
  Text.js "{'type': 'telemetry', 'zo".

(** A telemetry line that has no zone. *)
Definition zoneless_line : string :=
  Text.js "{'type': 'telemetry', 'pv_c': 72.5}".

Definition zoneless_obj : list (string * PyVal) :=
  [("type", PStr "telemetry"); ("pv_c", PFloat 72.5)].

(** A line that is JSON but not an object. *)
Definition array_line : string := "[1]".

(** The first scenario line as the writer leaves it in two flushes. *)
Definition first_flush : string :=
  Text.js "{'type':'telemetry','zone':1,'t_epoch_s':1700000000,'pv_c':72.5,'sp_abs_c':75.0,'outp".

Definition second_flush : string :=
  (Text.js "ut_pct':40.0,'method':'PID','mode':'AUTO','autotune':false}" ++ Text.newline)%string.

(** A telemetry line whose [method] ends in [U+00E9], as the writer leaves
    it when a flush ends between the two bytes of that character. *)
Definition flush_cut_in_character : string :=
  (Text.js "{'type':'telemetry','zone':2,'t_epoch_s':1700000000,'pv_c':72.5,'method':'caf"
   ++ Text.bytes [195%N])%string.

Definition flush_of_the_rest : string :=
  (Text.bytes [169%N] ++ Text.js "'}" ++ Text.newline)%string.

(** ** A reference runtime *)

(** An executable [PyRuntime]: a decoder for the JSON grammar as
    [json.loads] reads it (the constants [NaN], [Infinity] and [-Infinity]
    included, control characters in strings refused, the last of two equal
    keys kept), correctly rounded decimal-to-double conversion, and
    symbolic [datetime] values. [float] of a [str], [int] of a [str], [\d]
    and [fromisoformat] cover the common forms only, as their comments
    say. *)
Module RefRuntime.

Import Text.

Definition is_json_ws (c : ascii) : bool :=
  let n := code c in ((n =? 32) || (n =? 9) || (n =? 10) || (n =? 13))%N.

Fixpoint skip_ws (s : string) : string :=
  match s with
  | String c r => if is_json_ws c then skip_ws r else s
  | EmptyString => EmptyString
  end.

Definition hex_value (c : ascii) : option N :=
  let n := code c in
  if ((48 <=? n) && (n <=? 57))%N then Some (n - 48)%N
  else if ((65 <=? n) && (n <=? 70))%N then Some (n - 55)%N
  else if ((97 <=? n) && (n <=? 102))%N then Some (n - 87)%N
  else None.

Definition hex4 (s : string) : option (N * string) :=
  match s with
  | String a (String b (String c (String d r))) =>
      match hex_value a, hex_value b, hex_value c, hex_value d with
      | Some a, Some b, Some c, Some d => Some ((((a * 16 + b) * 16 + c) * 16 + d)%N, r)
      | _, _, _, _ => None
      end
  | _ => None
  end.

(** The UTF-8 bytes of a code point (a lone surrogate gets three). *)
Definition utf8 (u : N) : string :=
  (if u <? 128 then bytes [u]
   else if u <? 2048 then bytes [192 + u / 64; 128 + u mod 64]
   else if u <? 65536 then
     bytes [224 + u / 4096; 128 + (u / 64) mod 64; 128 + u mod 64]
   else
     bytes [240 + u / 262144; 128 + (u / 4096) mod 64;
            128 + (u / 64) mod 64; 128 + u mod 64])%N.

Definition simple_escape (c : ascii) : option ascii :=
  let n := code c in
  if (n =? 34)%N then Some "034"%char
  else if (n =? 92)%N then Some "\"%char
  else if (n =? 47)%N then Some "/"%char
  else if (n =? 98)%N then Some "008"%char
  else if (n =? 102)%N then Some "012"%char
  else if (n =? 110)%N then Some "010"%char
  else if (n =? 114)%N then Some "013"%char
  else if (n =? 116)%N then Some "009"%char
  else None.

(** The second half of a surrogate pair, when [s] starts with its escape. *)
Definition low_surrogate (s : string) : option (option (N * string)) :=
  match s with
  | String c1 (String c2 r) =>
      if (Ascii.eqb c1 "\" && Ascii.eqb c2 "u")%bool then
        match hex4 r with
        | Some (u2, r') =>
            if ((56320 <=? u2) && (u2 <=? 57343))%N then Some (Some (u2, r'))
            else Some None
        | None => None
        end
      else Some None
  | _ => Some None
  end.

(** The text of a string literal after its opening quote, with what
    follows the closing quote. [acc] is the text read, reversed. *)
Fixpoint scanstring (fuel : nat) (acc s : string) : option (string * string) :=
  match fuel, s with
  | S fuel', String c r =>
      if (code c =? 34)%N then Some (rev acc, r)
      else if (code c =? 92)%N then
        match r with
        | String e r' =>
            if (code e =? 117)%N then
              match hex4 r' with
              | Some (u, r'') =>
                  if ((55296 <=? u) && (u <=? 56319))%N then
                    match low_surrogate r'' with
                    | Some (Some (u2, r3)) =>
                        scanstring fuel'
                          (rev_acc (utf8 (65536 + (u - 55296) * 1024 + (u2 - 56320))%N) acc) r3
                    | Some None => scanstring fuel' (rev_acc (utf8 u) acc) r''
                    | None => None
                    end
                  else scanstring fuel' (rev_acc (utf8 u) acc) r''
              | None => None
              end
            else
              match simple_escape e with
              | Some x => scanstring fuel' (String x acc) r'
              | None => None
              end
        | EmptyString => None
        end
      else if (code c <? 32)%N then None
      else scanstring fuel' (String c acc) r
  | _, _ => None
  end.

(** The double nearest to [m * 10^e] (ties to even), for [0 <= m]. *)
Definition float_of_decimal (neg : bool) (m e : Z) : float :=
  let sgn x := (if neg then - x else x)%Z in
  if (m =? 0)%Z then (if neg then (-0)%float else 0%float)
  else if (400 <? e)%Z then (if neg then neg_infinity else infinity)
  else if (Z.log2 m + 1 + 3 * e <? -1080)%Z then (if neg then (-0)%float else 0%float)
  else if (0 <=? e)%Z then
    SF2Prim (binary_normalize prec emax (sgn (m * 10 ^ e)%Z) 0 false)
  else
    let d := (10 ^ (- e))%Z in
    let k := Z.max 0 (64 + Z.log2 d - Z.log2 m) in
    let q := ((m * 2 ^ k) / d)%Z in
    let r := ((m * 2 ^ k) mod d)%Z in
    let sticky := (if (r =? 0)%Z then 0 else 1)%Z in
    SF2Prim (binary_normalize prec emax (sgn (2 * q + sticky)%Z) (- k - 1) false).

(** The optional [.digits] of a number. *)
Definition scan_frac (s : string) : string * string :=
  match s with
  | String c r =>
      if Ascii.eqb c "." then
        match take_digits r with
        | EmptyString => (EmptyString, s)
        | ds => (ds, drop_digits r)
        end
      else (EmptyString, s)
  | EmptyString => (EmptyString, s)
  end.

(** The optional exponent of a number. *)
Definition scan_exp (s : string) : option Z * string :=
  match s with
  | String c r =>
      if (Ascii.eqb c "e" || Ascii.eqb c "E")%bool then
        let '(neg, r') :=
          match r with
          | String sg r1 =>
              if Ascii.eqb sg "-" then (true, r1)
              else if Ascii.eqb sg "+" then (false, r1)
              else (false, r)
          | EmptyString => (false, r)
          end in
        match take_digits r' with
        | EmptyString => (None, s)
        | ds => (Some (if neg then - int_of_digits ds else int_of_digits ds)%Z,
                 drop_digits r')
        end
      else (None, s)
  | EmptyString => (None, s)
  end.

(** A number at the front of [s]: an [int] without fraction and
    exponent, a [float] with either. *)
Definition scan_number (s : string) : option (PyVal * string) :=
  let '(neg, s1) :=
    match s with
    | String c r => if Ascii.eqb c "-" then (true, r) else (false, s)
    | EmptyString => (false, s)
    end in
  match s1 with
  | String c r =>
      if is_digit c then
        let '(int_ds, s2) :=
          if Ascii.eqb c "0" then ("0", r) else (take_digits s1, drop_digits s1) in
        let '(frac_ds, s3) := scan_frac s2 in
        let '(ex, s4) := scan_exp s3 in
        match frac_ds, ex with
        | EmptyString, None =>
            let n := int_of_digits int_ds in
            Some (PInt (if neg then - n else n)%Z, s4)
        | _, _ =>
            let m := int_of_digits (int_ds ++ frac_ds) in
            let e := (match ex with Some e => e | None => 0 end
                      - Z.of_nat (String.length frac_ds))%Z in
            Some (PFloat (float_of_decimal neg m e), s4)
        end
      else None
  | EmptyString => None
  end.

(** [d[k] = v]. *)
Fixpoint dict_set (k : string) (v : PyVal) (d : list (string * PyVal))
  : list (string * PyVal) :=
  match d with
  | [] => [(k, v)]
  | (k', v') :: d' =>
      if String.eqb k' k then (k, v) :: d' else (k', v') :: dict_set k v d'
  end.

(** One JSON value at the front of [s], and the text after it. *)
Fixpoint scan_once (fuel : nat) (s : string) : option (PyVal * string) :=
  match fuel with
  | O => None
  | S fuel' =>
      match s with
      | EmptyString => None
      | String c r =>
          if (code c =? 34)%N then
            match scanstring (String.length r) EmptyString r with
            | Some (str, r') => Some (PStr str, r')
            | None => None
            end
          else if Ascii.eqb c "{" then
            match skip_ws r with
            | String c' r' =>
                if Ascii.eqb c' "}" then Some (PDict [], r')
                else if (code c' =? 34)%N then scan_items fuel' [] r'
                else None
            | EmptyString => None
            end
          else if Ascii.eqb c "[" then
            match skip_ws r with
            | String c' r' =>
                if Ascii.eqb c' "]" then Some (PList [], r')
                else scan_elements fuel' [] (String c' r')
            | EmptyString => None
            end
          else
            match drop_prefix "null" s, drop_prefix "true" s, drop_prefix "false" s with
            | Some r', _, _ => Some (PNone, r')
            | _, Some r', _ => Some (PBool true, r')
            | _, _, Some r' => Some (PBool false, r')
            | None, None, None =>
                match scan_number s with
                | Some res => Some res
                | None =>
                    match drop_prefix "NaN" s, drop_prefix "Infinity" s,
                          drop_prefix "-Infinity" s with
                    | Some r', _, _ => Some (PFloat nan, r')
                    | _, Some r', _ => Some (PFloat infinity, r')
                    | _, _, Some r' => Some (PFloat neg_infinity, r')
                    | None, None, None => None
                    end
                end
            end
      end
  end

(** The items of an object, from just after the opening quote of a key. *)
with scan_items (fuel : nat) (acc : list (string * PyVal)) (s : string)
  : option (PyVal * string) :=
  match fuel with
  | O => None
  | S fuel' =>
      match scanstring (String.length s) EmptyString s with
      | None => None
      | Some (key, s1) =>
          match skip_ws s1 with
          | String c r =>
              if Ascii.eqb c ":" then
                match scan_once fuel' (skip_ws r) with
                | None => None
                | Some (value, s2) =>
                    let acc := dict_set key value acc in
                    match skip_ws s2 with
                    | String c' r' =>
                        if Ascii.eqb c' "}" then Some (PDict acc, r')
                        else if Ascii.eqb c' "," then
                          match skip_ws r' with
                          | String q r'' =>
                              if (code q =? 34)%N then scan_items fuel' acc r'' else None
                          | EmptyString => None
                          end
                        else None
                    | EmptyString => None
                    end
                end
              else None
          | EmptyString => None
          end
      end
  end

(** The elements of an array, from the front of an element. [acc] is
    reversed. *)
with scan_elements (fuel : nat) (acc : list PyVal) (s : string)
  : option (PyVal * string) :=
  match fuel with
  | O => None
  | S fuel' =>
      match scan_once fuel' s with
      | None => None
      | Some (value, s1) =>
          match skip_ws s1 with
          | String c r =>
              if Ascii.eqb c "]" then Some (PList (List.rev (value :: acc)), r)
              else if Ascii.eqb c "," then scan_elements fuel' (value :: acc) (skip_ws r)
              else None
          | EmptyString => None
          end
      end
  end.

(** [json.loads]: one value, with white space around it and nothing else.
    Every step of the scanner consumes a character, so the length of the
    text is fuel enough. *)
Definition loads (s : string) : option PyVal :=
  match scan_once (S (String.length s)) (skip_ws s) with
  | Some (v, r) =>
      match skip_ws r with
      | EmptyString => Some v
      | _ => None
      end
  | None => None
  end.

(** [float(s)] for a [str]: white space around an optional sign and
    either [nan], [inf], [infinity] in lower case or digits with an optional
    point and exponent. Underscores between digits and the upper-case
    spellings, which Python reads too, are not read here. *)
Definition str_to_float (s : string) : option float :=
  let s := strip s in
  let '(neg, s1) :=
    match s with
    | String c r =>
        if Ascii.eqb c "-" then (true, r)
        else if Ascii.eqb c "+" then (false, r)
        else (false, s)
    | EmptyString => (false, s)
    end in
  if String.eqb s1 "nan" then Some nan
  else if (String.eqb s1 "inf" || String.eqb s1 "infinity")%bool
  then Some (if neg then neg_infinity else infinity)
  else
    let int_ds := take_digits s1 in
    let s2 := drop_digits s1 in
    let '(frac_ds, s3) :=
      match s2 with
      | String c r => if Ascii.eqb c "." then (take_digits r, drop_digits r) else (EmptyString, s2)
      | EmptyString => (EmptyString, s2)
      end in
    match (int_ds ++ frac_ds)%string, scan_exp s3 with
    | EmptyString, _ => None
    | ds, (ex, EmptyString) =>
        let e := (match ex with Some e => e | None => 0 end
                  - Z.of_nat (String.length frac_ds))%Z in
        Some (float_of_decimal neg (int_of_digits ds) e)
    | _, (_, String _ _) => None
    end.

(** A [datetime], by what it denotes: the instant of an epoch second, or
    a naive calendar time. *)
Inductive ref_datetime : Type :=
| Instant (epoch_s : float)
| Civil (year month day hour minute second : Z).

(** [datetime.fromtimestamp(x, tz=timezone.utc)]: years 1 to 9999. *)
Definition utc_from_epoch (x : float) : option ref_datetime :=
  if (PrimFloat.leb (-62135596800)%float x && PrimFloat.ltb x 253402300800%float)%bool
  then Some (Instant x)
  else None.

(** [dt.astimezone(tz)]: the same instant. *)
Definition same_instant (dt : ref_datetime) (tz : option string) : option ref_datetime :=
  Some dt.

Definition two_digits (s : string) : option (Z * string) :=
  match s with
  | String a (String b r) =>
      if (is_digit a && is_digit b)%bool
      then Some ((10 * digit_value a + digit_value b)%Z, r)
      else None
  | _ => None
  end.

Definition days_in_month (y m : Z) : Z :=
  if Z.eqb m 2 then
    (if (Z.eqb (y mod 4) 0 && (negb (Z.eqb (y mod 100) 0) || Z.eqb (y mod 400) 0))%bool
     then 29 else 28)%Z
  else if (Z.eqb m 4 || Z.eqb m 6 || Z.eqb m 9 || Z.eqb m 11)%bool then 30%Z
  else 31%Z.

Definition expect (c : ascii) (s : string) : option string :=
  match s with
  | String c' r => if Ascii.eqb c c' then Some r else None
  | EmptyString => None
  end.

(** [datetime.fromisoformat(s)], for the form [YYYY-MM-DDTHH:MM:SS]; the
    other forms Python reads are not read here. *)
Definition parse_iso (s : string) : option ref_datetime :=
  '(c, s) ← two_digits s;
  '(yy, s) ← two_digits s;
  s ← expect "-" s;
  '(mo, s) ← two_digits s;
  s ← expect "-" s;
  '(d, s) ← two_digits s;
  s ← expect "T" s;
  '(h, s) ← two_digits s;
  s ← expect ":" s;
  '(mi, s) ← two_digits s;
  s ← expect ":" s;
  '(sec, s) ← two_digits s;
  let y := (100 * c + yy)%Z in
  if (String.eqb s "" && (1 <=? y) && (1 <=? mo) && (mo <=? 12) && (1 <=? d)
      && (d <=? days_in_month y mo) && (h <? 24) && (mi <? 60) && (sec <? 60))%Z
  then Some (Civil y mo d h mi sec)
  else None.

(** [\d] over the ASCII digits; the digits of other scripts are not known
    here. *)
Definition ascii_decimal_prefix (s : string) : nat :=
  match s with
  | String c _ => if is_digit c then 1 else 0
  | EmptyString => 0
  end.

(** [int(s)] for a text of ASCII digits, of any length. *)
Definition digits_to_int (s : string) : option Z :=
  match s, drop_digits s with
  | String _ _, EmptyString => Some (int_of_digits s)
  | _, _ => None
  end.

#[export] Instance runtime : PyRuntime := {|
  json_loads := loads;
  float_of_str := str_to_float;
  int_of_str := digits_to_int;
  decimal_prefix := ascii_decimal_prefix;
  datetime := ref_datetime;
  tzinfo := string;
  LOCAL_TZ := Some "America/Los_Angeles";
  fromtimestamp_utc := utc_from_epoch;
  astimezone := same_instant;
  fromisoformat := parse_iso
|}.

End RefRuntime.

(** The viewer after it has opened an empty log, on the reference
    runtime. *)
Definition tailing_viewer : Viewer (rt := RefRuntime.runtime) :=
  fst (open_log "cn616a_log_1.jsonl" (Some EmptyString) initial_viewer).

(** ** More vocabulary *)

Section Vocabulary.

Context {rt : PyRuntime}.

(** Every record sits under its own zone id. *)
Definition keyed (sbz : gmap Z ZoneSeries) : Prop :=
  forall z s, sbz !! z = Some s -> zone s = z.

(** A line that is a message for zone [z]: it decodes to an object of
    type [telemetry] or [event] whose [zone] is the integer [z]. *)
Definition names_zone (line : string) (z : Z) : Prop :=
  exists obj,
    decoded line = Some (PDict obj) /\
    (eq_str (dict_get "type" obj) "telemetry" = true \/
     eq_str (dict_get "type" obj) "event" = true) /\
    isinstance_int (dict_get "zone" obj) = Some z.

(** A telemetry line for zone [z] that carries a point: its timestamp
    resolves to [dt] and its [pv_c] converts to [x]. *)
Definition sample (line : string) (z : Z) (dt : datetime) (x : float) : Prop :=
  exists obj,
    telemetry_message line obj z /\
    line_dt obj = Some dt /\
    is_nan (dict_get "pv_c" obj) = false /\
    py_float (dict_get "pv_c" obj) = Some x.

(** Whether [_ingest_line] raises on the line. *)
Definition raises (line : string) : bool :=
  match snd (_ingest_line ∅ line) with
  | Raises => true
  | Returns _ => false
  end.

(** Text that ends at a line boundary. *)
Definition complete (c : string) : Prop :=
  c = EmptyString \/ exists a, c = (a ++ Text.newline)%string.

(** The values the telemetry path and the event path try in turn. *)
Definition telemetry_alias_values (obj : list (string * PyVal)) : list PyVal :=
  [dict_get "autotune_sp_c" obj; dict_get "autotune_setpoint_c" obj;
   dict_get "autotune_setpoint" obj].

Definition event_alias_values (obj : list (string * PyVal)) : list PyVal :=
  [dict_get "autotune_sp_c" obj; dict_get "autotune_setpoint_c" obj;
   dict_get "autotune_setpoint" obj; dict_get "sp" obj].

(** The lines the loop of a full load hands to [_ingest_line]: those up
    to and including the first on which it raises. *)
Fixpoint until_raise (lines : list string) : list string :=
  match lines with
  | [] => []
  | line :: rest => if raises line then [line] else line :: until_raise rest
  end.

(** [_tail_tick] on the bytes of the tailed file, with the read that can
    fail. [readlines()] decodes every byte from the cursor to the end of
    the file, and raises [UnicodeDecodeError] when they are not UTF-8, as
    when the writer's last flush ends inside a multi-byte character. The
    exception leaves the [try] before [_tail_pos] is assigned: no line is
    ingested, the cursor stays where it was, and the tick ends in
    [Tailing error]. On bytes that decode the tick is [_tail_tick]. *)
Definition tick_on_bytes (content : string) (v : Viewer) : Viewer * option (gset Z) :=
  match _tail_fp v, current_log_path v with
  | Some _, Some _ =>
      if Text.utf8_valid (Text.skip (_tail_pos v) content)
      then _tail_tick content v
      else (v, None)
  | _, _ => (v, Some ∅)
  end.

End Vocabulary.

(** ** Choosing the log to open *)

Section MostRecent.

(** A candidate is a path with its [st_mtime]; [lt] is [<] on these. *)
Context {path mtime : Type} (lt : mtime -> mtime -> bool).

(** One step of a stable sort, newest first: [c] goes in front of the
    first candidate that is not newer than it. *)
Fixpoint insert_newest_first (c : path * mtime) (l : list (path * mtime))
  : list (path * mtime) :=
  match l with
  | [] => [c]
  | d :: l' =>
      if lt (snd c) (snd d) then d :: insert_newest_first c l'
      else c :: d :: l'
  end.

(** [candidates.sort(key=lambda p: p.stat().st_mtime, reverse=True)]:
    newest first, candidates of one age in the order they had. *)
Definition sort_newest_first (candidates : list (path * mtime)) : list (path * mtime) :=
  fold_right insert_newest_first [] candidates.

(** [find_most_recent_log]; [candidates] is what
    [search_dir.glob(LOG_GLOB)] lists, each path with its [st_mtime]. *)
Definition find_most_recent_log (candidates : list (path * mtime)) : option path :=
  match candidates with
  | [] => None
  | _ =>
      match sort_newest_first candidates with
      | c :: _ => Some (fst c)
      | [] => None
      end
  end.

End MostRecent.

(** Three logs in a folder, the two newest of one age. *)
Definition three_logs : list (string * Z) :=
  [("cn616a_log_a.jsonl", 100%Z); ("cn616a_log_b.jsonl", 300%Z);
   ("cn616a_log_c.jsonl", 300%Z)].

(** A telemetry line whose [pv_c] is text that is no number. *)
Definition bad_pv_line : string :=
  Text.js "{'type': 'telemetry', 'zone': 4, 't_epoch_s': 1700000000, 'pv_c': 'hot'}".

Definition bad_pv_obj : list (string * PyVal) :=
  [("type", PStr "telemetry"); ("zone", PInt 4); ("t_epoch_s", PInt 1700000000);
   ("pv_c", PStr "hot")].

(** An event that gives the setpoint as 0 under the last alias only. *)
Definition setpoint_0_event : string :=
  Text.js "{'type': 'event', 'zone': 1, 'sp': 0, 'setpoint': 0}".

Definition setpoint_0_obj : list (string * PyVal) :=
  [("type", PStr "event"); ("zone", PInt 1); ("sp", PInt 0); ("setpoint", PInt 0)].

(** A telemetry line for a zone that is not among the default ones. *)
Definition zone_9_line : string :=
  Text.js "{'type': 'telemetry', 'zone': 9, 't_epoch_s': 1700000020, 'pv_c': 55}".

Definition zone_9_obj : list (string * PyVal) :=
  [("type", PStr "telemetry"); ("zone", PInt 9); ("t_epoch_s", PInt 1700000020);
   ("pv_c", PInt 55)].

Definition aliases_0_9_obj : list (string * PyVal) :=
  [("type", PStr "telemetry"); ("zone", PInt 1); ("t_epoch_s", PInt 1700000000);
   ("pv_c", PFloat 72.5); ("autotune_sp_c", PInt 0); ("autotune_setpoint", PInt 9)].

(** A small log: the scenario with a line for zone 9 in it. *)
Definition small_log : string :=
  (scenario_line1 ++ Text.newline ++ scenario_line2 ++ Text.newline
   ++ zone_9_line ++ Text.newline ++ scenario_line3 ++ Text.newline)%string.

(** Closes a goal about concrete lines by running the model. *)
Ltac run_model := vm_compute; reflexivity.

(** * Properties *)

Example strip_line :
  Text.strip (Text.bytes [32; 194; 160; 123; 125; 13; 10]%N) = "{}".
Proof. reflexivity. Qed.

Example readlines_fragment :
  Text.readlines (Text.bytes [97; 10; 98; 13; 10; 99]%N) =
  [Text.bytes [97; 10]%N; Text.bytes [98; 10]%N; "c"].
Proof. reflexivity. Qed.

Example zone_guess_truncated :
  zone_guess (rt := RefRuntime.runtime)
    (Text.js "{'type': 'telemetry', 'zone' :  12, 'pv") = Some 12%Z.
Proof. vm_compute. reflexivity. Qed.

Example loads_scenario_line1 :
  RefRuntime.loads scenario_line1 = Some (PDict scenario_obj1).
Proof. vm_compute. reflexivity. Qed.

Example loads_last_key_wins :
  RefRuntime.loads (Text.js "{'a': 1, 'b': [true, null], 'a': -2.5e0}") =
  Some (PDict [("a", PFloat (-2.5)); ("b", PList [PBool true; PNone])]).
Proof. vm_compute. reflexivity. Qed.

Example loads_refuses :
  List.map RefRuntime.loads ["01"; "1."; "[1,]"; "{} {}"; ""; "nul"] =
  [None; None; None; None; None; None].
Proof. vm_compute. reflexivity. Qed.

Section Properties.

Context {rt : PyRuntime}.

Implicit Types (sbz : gmap Z ZoneSeries) (line : string)
  (obj : list (string * PyVal)) (z : Z) (s : ZoneSeries).

(** ** The zone registry *)

Lemma ensure_zone_lookup sbz z :
  _ensure_zone z sbz !! z = Some (zone_state sbz z).
Proof.
  unfold _ensure_zone, zone_state.
  destruct (sbz !! z) as [s|] eqn:E; [exact E | apply lookup_insert_eq].
Qed.

Lemma ensure_zone_other sbz z z' :
  z' <> z -> _ensure_zone z sbz !! z' = sbz !! z'.
Proof.
  intros Hne. unfold _ensure_zone.
  destruct (sbz !! z); [reflexivity | apply lookup_insert_ne; congruence].
Qed.

Lemma zone_state_ensure sbz z z' :
  zone_state (_ensure_zone z sbz) z' = zone_state sbz z'.
Proof.
  destruct (decide (z' = z)) as [->|Hne].
  - unfold zone_state at 1. now rewrite ensure_zone_lookup.
  - unfold zone_state. now rewrite ensure_zone_other.
Qed.

Lemma zone_state_alter (f : ZoneSeries -> ZoneSeries) sbz z :
  zone_state (alter f z (_ensure_zone z sbz)) z = f (zone_state sbz z).
Proof.
  unfold zone_state at 1.
  now rewrite lookup_alter_eq, ensure_zone_lookup.
Qed.

Lemma alter_ensure_other (f : ZoneSeries -> ZoneSeries) sbz z z' :
  z' <> z -> alter f z (_ensure_zone z sbz) !! z' = sbz !! z'.
Proof.
  intros Hne. rewrite lookup_alter_ne by congruence.
  now apply ensure_zone_other.
Qed.

(** ** What [_ingest_line] does, by kind of line *)

Lemma eq_str_telemetry_not_event (v : PyVal) :
  eq_str v "telemetry" = true -> eq_str v "event" = false.
Proof.
  destruct v; simpl; try discriminate.
  intros H. apply String.eqb_eq in H. now subst.
Qed.

Lemma ingest_of_decoded sbz line :
  _ingest_line sbz line =
  match decoded line with
  | None => (sbz, Returns None)
  | Some (PDict obj) => _ingest_line sbz line
  | Some _ => (sbz, Raises)
  end.
Proof.
  unfold _ingest_line, decoded.
  destruct (String.eqb (Text.strip line) ""); [reflexivity|].
  destruct (json_loads (Text.strip line)) as [[]|]; reflexivity.
Qed.

Lemma ingest_undecoded sbz line :
  decoded line = None -> _ingest_line sbz line = (sbz, Returns None).
Proof. intros H. rewrite ingest_of_decoded. now rewrite H. Qed.

Lemma ingest_not_a_dict sbz line (v : PyVal) :
  decoded line = Some v -> (forall obj, v <> PDict obj) ->
  _ingest_line sbz line = (sbz, Raises).
Proof.
  intros H Hv. rewrite ingest_of_decoded, H.
  destruct v; try reflexivity. now destruct (Hv d).
Qed.

Lemma ingest_dict sbz line obj :
  decoded line = Some (PDict obj) ->
  _ingest_line sbz line =
  if eq_str (dict_get "type" obj) "event" then
    match isinstance_int (dict_get "zone" obj) with
    | Some z =>
        if negb (is_None (event_sp obj))
        then (alter (set_last_autotune_sp (event_sp obj)) z (_ensure_zone z sbz),
              Returns None)
        else (_ensure_zone z sbz, Returns None)
    | None => (sbz, Returns None)
    end
  else if negb (eq_str (dict_get "type" obj) "telemetry") then (sbz, Returns None)
  else
    match isinstance_int (dict_get "zone" obj) with
    | None => (sbz, Returns None)
    | Some z =>
        match line_dt obj with
        | None => (_ensure_zone z sbz, Returns (Some z))
        | Some dt =>
            match line_pv_val (dict_get "pv_c" obj) with
            | None => (_ensure_zone z sbz, Raises)
            | Some pv_val =>
                (alter (record_telemetry obj dt pv_val) z (_ensure_zone z sbz),
                 Returns (Some z))
            end
        end
    end.
Proof.
  unfold decoded, _ingest_line.
  destruct (String.eqb (Text.strip line) ""); [discriminate|].
  intros ->. reflexivity.
Qed.

Lemma ingest_unrecognised sbz line :
  unrecognised line -> _ingest_line sbz line = (sbz, Returns None).
Proof.
  intros [H | (obj & H & Htel & Hev)].
  - now apply ingest_undecoded.
  - rewrite (ingest_dict _ _ _ H), Hev, Htel. reflexivity.
Qed.

Lemma ingest_event sbz line obj z :
  event_message line obj z ->
  _ingest_line sbz line =
  (if is_None (event_sp obj) then _ensure_zone z sbz
   else alter (set_last_autotune_sp (event_sp obj)) z (_ensure_zone z sbz),
   Returns None).
Proof.
  intros (H & Hev & Hz).
  rewrite (ingest_dict _ _ _ H), Hev, Hz.
  now destruct (is_None (event_sp obj)).
Qed.

Lemma ingest_telemetry_no_time sbz line obj z :
  telemetry_message line obj z -> line_dt obj = None ->
  _ingest_line sbz line = (_ensure_zone z sbz, Returns (Some z)).
Proof.
  intros (H & Htel & Hz) Hdt.
  rewrite (ingest_dict _ _ _ H), (eq_str_telemetry_not_event _ Htel), Htel, Hz, Hdt.
  reflexivity.
Qed.

Lemma ingest_telemetry sbz line obj z (dt : datetime) (pv_val : option float) :
  telemetry_message line obj z -> line_dt obj = Some dt ->
  line_pv_val (dict_get "pv_c" obj) = Some pv_val ->
  _ingest_line sbz line =
  (alter (record_telemetry obj dt pv_val) z (_ensure_zone z sbz), Returns (Some z)).
Proof.
  intros (H & Htel & Hz) Hdt Hpv.
  rewrite (ingest_dict _ _ _ H), (eq_str_telemetry_not_event _ Htel), Htel, Hz, Hdt, Hpv.
  reflexivity.
Qed.

(** How a call ends depends on the line alone, not on the zones' state. *)
Lemma ingest_outcome_of_line sbz sbz' line :
  snd (_ingest_line sbz line) = snd (_ingest_line sbz' line).
Proof.
  rewrite (ingest_of_decoded sbz), (ingest_of_decoded sbz').
  destruct (decoded line) as [[]|] eqn:E; try reflexivity.
  rewrite !(ingest_dict _ _ _ E).
  repeat match goal with
         | |- context [if ?b then _ else _] => destruct b
         | |- context [match ?x with _ => _ end] => destruct x
         end; reflexivity.
Qed.

(** ** Telemetry lines *)

Lemma is_nan_pv_val (v : PyVal) :
  is_nan v = true -> line_pv_val v = Some None.
Proof. unfold line_pv_val. now intros ->. Qed.

(** C1, as the code has it. A telemetry line with an integer zone whose
    timestamp does not resolve is dropped whole: [_ingest_line] leaves
    through [return z] before it reads [pv_c], so the zone's series and
    every snapshot field stay as they were (the zone is registered if it
    was unknown), every other zone is untouched, and the zone id is still
    returned. *)
Theorem telemetry_without_timestamp_is_dropped sbz line obj z :
  telemetry_message line obj z ->
  line_dt obj = None ->
  let sbz' := fst (_ingest_line sbz line) in
  snd (_ingest_line sbz line) = Returns (Some z) /\
  sbz' = _ensure_zone z sbz /\
  zone_state sbz' z = zone_state sbz z /\
  (forall z', z' <> z -> sbz' !! z' = sbz !! z').
Proof.
  intros Hmsg Hdt. cbv zeta.
  rewrite (ingest_telemetry_no_time sbz _ _ _ Hmsg Hdt). simpl.
  repeat split.
  - apply zone_state_ensure.
  - intros z' Hne. now apply ensure_zone_other.
Qed.

(** C5. A telemetry line with an integer zone and a resolved timestamp
    whose [pv_c] is null or NaN does not extend the zone's series, and
    overwrites the snapshot fields pv, sp_abs, output_pct, method, mode and
    autotune from the line, the null or NaN pv as it stands. *)
Theorem nan_pv_updates_snapshot_only sbz line obj z (dt : datetime) :
  telemetry_message line obj z ->
  line_dt obj = Some dt ->
  is_nan (dict_get "pv_c" obj) = true ->
  let s := zone_state sbz z in
  let s' := zone_state (fst (_ingest_line sbz line)) z in
  (t s' = t s /\ pv s' = pv s) /\
  last_pv s' = dict_get "pv_c" obj /\
  last_sp s' = dict_get "sp_abs_c" obj /\
  last_out s' = dict_get "output_pct" obj /\
  last_method s' = dict_get_or "method" placeholder obj /\
  last_mode s' = dict_get_or "mode" placeholder obj /\
  last_autotune s' = dict_get "autotune" obj.
Proof.
  intros Hmsg Hdt Hnan. cbv zeta.
  rewrite (ingest_telemetry sbz _ _ _ dt None Hmsg Hdt (is_nan_pv_val _ Hnan)).
  simpl fst. rewrite zone_state_alter. simpl. repeat split.
Qed.

(** ** Event lines *)

Lemma dict_get_present (k : string) obj (v : PyVal) :
  dict_get k obj = v -> v <> PNone -> dict_lookup k obj = Some v.
Proof.
  unfold dict_get, dict_get_or.
  destruct (dict_lookup k obj); intros <- Hv; [reflexivity | now destruct Hv].
Qed.

Lemma py_or_cases (a b : PyVal) : py_or a b = a \/ py_or a b = b.
Proof. unfold py_or. destruct (truthy a); auto. Qed.

Lemma event_sp_from_alias obj :
  exists k, In k event_aliases /\ dict_get k obj = event_sp obj.
Proof.
  unfold event_sp, event_aliases.
  repeat match goal with
         | |- context [py_or ?a ?b] =>
             destruct (py_or_cases a b) as [-> | ->]
         end;
    eexists; (split; [| reflexivity]); simpl; tauto.
Qed.

Lemma event_sp_absent obj :
  (forall k, In k event_aliases -> dict_get k obj = PNone) -> event_sp obj = PNone.
Proof.
  intros H. destruct (event_sp_from_alias obj) as (k & Hk & <-). now apply H.
Qed.

Lemma is_None_true (v : PyVal) : is_None v = true -> v = PNone.
Proof. now destruct v. Qed.

Lemma is_None_false (v : PyVal) : is_None v = false -> v <> PNone.
Proof. now destruct v. Qed.

(** C6. An event line with an integer zone changes nothing but the
    zone's [last_autotune_sp]: the series and the snapshot fields pv,
    sp_abs, output_pct, method, mode and autotune of the zone stay, as does
    every other zone. If [last_autotune_sp] changes, its new value is one
    the line has, not null, under one of the alias keys; a line that has no
    alias key, or null under each, leaves it as it was. *)
Theorem event_changes_only_autotune_setpoint sbz line obj z :
  event_message line obj z ->
  let s := zone_state sbz z in
  let sbz' := fst (_ingest_line sbz line) in
  let s' := zone_state sbz' z in
  (t s' = t s /\ pv s' = pv s /\
   last_pv s' = last_pv s /\ last_sp s' = last_sp s /\ last_out s' = last_out s /\
   last_method s' = last_method s /\ last_mode s' = last_mode s /\
   last_autotune s' = last_autotune s) /\
  (forall z', z' <> z -> sbz' !! z' = sbz !! z') /\
  (last_autotune_sp s' = last_autotune_sp s \/
   exists k, In k event_aliases /\
     dict_lookup k obj = Some (last_autotune_sp s') /\ last_autotune_sp s' <> PNone) /\
  ((forall k, In k event_aliases -> dict_get k obj = PNone) ->
   last_autotune_sp s' = last_autotune_sp s).
Proof.
  intros Hmsg. cbv zeta. rewrite (ingest_event sbz _ _ _ Hmsg).
  destruct (is_None (event_sp obj)) eqn:Hsp; simpl fst.
  - rewrite zone_state_ensure. repeat split; auto.
    intros z' Hne. now apply ensure_zone_other.
  - rewrite zone_state_alter. simpl. repeat split.
    + intros z' Hne. now apply alter_ensure_other.
    + right. destruct (event_sp_from_alias obj) as (k & Hk & Hget).
      exists k. split; [exact Hk|]. split.
      * apply dict_get_present; [exact Hget | now apply is_None_false].
      * now apply is_None_false.
    + intros Habs. rewrite (event_sp_absent _ Habs) in Hsp. discriminate.
Qed.

(** ** Clearing a trace *)

(** C7. Clearing the trace of zone [z] empties both lists of its series,
    leaves each of its snapshot fields as it was, and leaves every other
    zone's record untouched. *)
Theorem clear_trace_empties_the_series_only sbz z :
  let s := zone_state sbz z in
  let s' := zone_state (on_clear z sbz) z in
  on_clear z sbz !! z = clear_trace <$> sbz !! z /\
  (t s' = [] /\ pv s' = []) /\
  (zone s' = zone s /\
   last_pv s' = last_pv s /\ last_sp s' = last_sp s /\ last_out s' = last_out s /\
   last_method s' = last_method s /\ last_mode s' = last_mode s /\
   last_autotune s' = last_autotune s /\
   last_autotune_sp s' = last_autotune_sp s) /\
  (forall z', z' <> z -> on_clear z sbz !! z' = sbz !! z').
Proof.
  cbv zeta. unfold on_clear, zone_state.
  rewrite lookup_alter_eq.
  destruct (sbz !! z) as [s|]; simpl; repeat split;
    intros z' Hne; apply lookup_alter_ne; congruence.
Qed.

(** ** Lines that are no message, and the counters of a full load *)

(** C3, as the code has it. A line that does not decode, or that decodes
    to an object whose type is missing or neither [telemetry] nor [event],
    leaves every zone's record as it was. The counters of the full load are
    textual: the line count counts the line like any other, and the
    telemetry count counts it exactly when its raw text contains
    ["type": "telemetry"]. *)
Theorem unrecognised_line_changes_no_zone sbz line (n_lines n_tel : nat)
    (rest : list string) :
  unrecognised line ->
  _ingest_line sbz line = (sbz, Returns None) /\
  load_lines sbz n_lines n_tel (line :: rest) =
  load_lines sbz (S n_lines)
    (if Text.contains telemetry_marker line then S n_tel else n_tel) rest.
Proof.
  intros H. split.
  - now apply ingest_unrecognised.
  - simpl. now rewrite (ingest_unrecognised sbz line H).
Qed.

(** ** The cursor of the tail *)

Lemma lines_acc_nonempty (cur s : string) :
  s <> "" \/ cur <> "" -> Text.lines_acc cur s <> [].
Proof.
  revert cur. induction s as [|c r IH]; intros cur H; simpl.
  - destruct H as [H|H]; [now destruct H|]. now destruct cur.
  - destruct (Ascii.eqb c "010"); [discriminate|].
    destruct (Ascii.eqb c "013").
    + destruct r as [|c' r']; [discriminate|]. now destruct (Ascii.eqb c' "010").
    + apply IH. right. discriminate.
Qed.

Lemma readlines_nonempty (s : string) : s <> "" -> Text.readlines s <> [].
Proof. intros H. apply lines_acc_nonempty. now left. Qed.

Lemma skip_nonempty (n : nat) (s : string) :
  n < String.length s -> Text.skip n s <> "".
Proof.
  revert s. induction n as [|n IH]; intros [|c r]; simpl; try lia; try discriminate.
  intros H. apply IH. lia.
Qed.

Lemma skip_all (n : nat) (s : string) :
  String.length s <= n -> Text.skip n s = "".
Proof.
  revert s. induction n as [|n IH]; intros [|c r]; simpl; try lia; try reflexivity.
  intros H. apply IH. lia.
Qed.

(** A tick on bytes that decode is the tick of the decoded text. *)
Lemma tick_on_bytes_decodes (content : string) (v : Viewer) :
  Text.utf8_valid (Text.skip (_tail_pos v) content) = true ->
  tick_on_bytes content v = _tail_tick content v.
Proof.
  intros Hv. unfold tick_on_bytes, _tail_tick. rewrite Hv.
  destruct (_tail_fp v); [|reflexivity].
  now destruct (current_log_path v).
Qed.

(** C4, as the code has it. A tick that finds new bytes that decode as
    UTF-8 reads them to the end of the file and leaves the cursor there,
    whether or not they end in a newline: an unterminated last line of
    whole characters does not hold the cursor back. When the new bytes do
    not decode, as when they end inside a multi-byte character, the read
    raises: the tick ends in [Tailing error] with the viewer, and so the
    cursor, as it was, and the next tick reads those bytes again. A tick
    that finds nothing new leaves the viewer as it was. *)
Theorem tail_tick_cursor_goes_to_end_of_file (content : string) (v : Viewer) :
  tailing v ->
  (_tail_pos v < String.length content ->
   Text.utf8_valid (Text.skip (_tail_pos v) content) = true ->
   _tail_pos (fst (tick_on_bytes content v)) = String.length content) /\
  (Text.utf8_valid (Text.skip (_tail_pos v) content) = false ->
   tick_on_bytes content v = (v, None)) /\
  (String.length content <= _tail_pos v ->
   tick_on_bytes content v = (v, Some ∅)).
Proof.
  intros [Hfp Hpath]. unfold tick_on_bytes, _tail_tick.
  destruct (_tail_fp v) as [fp|]; [|now destruct Hfp].
  destruct (current_log_path v) as [path|]; [|now destruct Hpath].
  split; [|split].
  - intros Hlen Hv. rewrite Hv.
    pose proof (readlines_nonempty _ (skip_nonempty _ _ Hlen)) as Hne.
    destruct (Text.readlines (Text.skip (_tail_pos v) content)) as [|l ls];
      [now destruct Hne|].
    now destruct (tail_lines (series_by_zone v) ∅ (l :: ls)).
  - intros Hv. now rewrite Hv.
  - intros Hlen. now rewrite (skip_all _ _ Hlen).
Qed.

(** ** The zones a tick reports *)

Lemma tail_lines_step sbz (touched : gset Z) line (rest : list string) :
  tail_lines sbz touched (line :: rest) =
  match _ingest_line sbz line with
  | (sbz', Raises) => (sbz', None)
  | (sbz', Returns (Some z)) => tail_lines sbz' ({[z]} ∪ touched) rest
  | (sbz', Returns None) =>
      match zone_guess line with
      | Some g => tail_lines sbz' ({[g]} ∪ touched) rest
      | None => tail_lines sbz' touched rest
      end
  end.
Proof. reflexivity. Qed.

Lemma tail_lines_keeps (lines : list string) sbz (touched touched' : gset Z) :
  snd (tail_lines sbz touched lines) = Some touched' -> touched ⊆ touched'.
Proof.
  revert sbz touched. induction lines as [|line rest IH]; intros sbz touched.
  - simpl. intros [= <-]. reflexivity.
  - rewrite tail_lines_step.
    destruct (_ingest_line sbz line) as [sbz1 [[z|]|]]; simpl.
    + intros H. apply IH in H. set_solver.
    + destruct (zone_guess line); intros H; apply IH in H; set_solver.
    + discriminate.
Qed.

Lemma tail_lines_reports_guess (lines : list string) sbz (touched touched' : gset Z)
    line (g : Z) :
  In line lines ->
  snd (_ingest_line sbz line) = Returns None ->
  zone_guess line = Some g ->
  snd (tail_lines sbz touched lines) = Some touched' ->
  g ∈ touched'.
Proof.
  intros Hin Hout Hg. revert sbz touched Hout.
  induction lines as [|l rest IH]; intros sbz touched Hout; [now destruct Hin|].
  rewrite tail_lines_step.
  destruct Hin as [-> | Hin].
  - destruct (_ingest_line sbz line) as [sbz1 out]. simpl in Hout. subst out.
    rewrite Hg. intros H. apply tail_lines_keeps in H. set_solver.
  - destruct (_ingest_line sbz l) as [sbz1 [[z|]|]]; simpl.
    + apply IH; [exact Hin | now rewrite (ingest_outcome_of_line sbz1 sbz)].
    + destruct (zone_guess l);
        (apply IH; [exact Hin | now rewrite (ingest_outcome_of_line sbz1 sbz)]).
    + discriminate.
Qed.

Lemma tail_lines_reports_zone (lines : list string) sbz (touched touched' : gset Z)
    line z :
  In line lines ->
  snd (_ingest_line sbz line) = Returns (Some z) ->
  snd (tail_lines sbz touched lines) = Some touched' ->
  z ∈ touched'.
Proof.
  intros Hin. revert sbz touched.
  induction lines as [|l rest IH]; intros sbz touched Hout; [now destruct Hin|].
  rewrite tail_lines_step.
  destruct Hin as [-> | Hin].
  - destruct (_ingest_line sbz line) as [sbz1 out]. simpl in Hout. subst out.
    intros H. apply tail_lines_keeps in H. set_solver.
  - destruct (_ingest_line sbz l) as [sbz1 [[z1|]|]]; simpl.
    + apply IH; [exact Hin | now rewrite (ingest_outcome_of_line sbz1 sbz)].
    + destruct (zone_guess l);
        (apply IH; [exact Hin | now rewrite (ingest_outcome_of_line sbz1 sbz)]).
    + discriminate.
Qed.

(** C9, as the code has it. In a tick that runs to its end, a line read
    in it for which [_ingest_line] returns no zone, whose raw text contains
    ["type": "telemetry"] and in which the textual scan finds
    ["zone": digits], puts the zone the scan read into the set of touched
    zones. ([zone_guess] is [None] unless the text has the marker and the
    scan matches.) *)
Theorem tail_tick_reports_guessed_zone (content : string) (v : Viewer) line
    (g : Z) (touched : gset Z) :
  tailing v ->
  In line (Text.readlines (Text.skip (_tail_pos v) content)) ->
  snd (_ingest_line (series_by_zone v) line) = Returns None ->
  zone_guess line = Some g ->
  snd (_tail_tick content v) = Some touched ->
  g ∈ touched.
Proof.
  intros [Hfp Hpath] Hin Hout Hg. unfold _tail_tick.
  destruct (_tail_fp v) as [fp|]; [|now destruct Hfp].
  destruct (current_log_path v) as [path|]; [|now destruct Hpath].
  destruct (Text.readlines (Text.skip (_tail_pos v) content)) as [|l ls] eqn:E;
    [now destruct Hin|].
  pose proof (tail_lines_reports_guess (l :: ls) (series_by_zone v) ∅) as H.
  destruct (tail_lines (series_by_zone v) ∅ (l :: ls)) as [sbz' r]. simpl in *.
  intros ->. now apply (H touched line g).
Qed.

(** ** The two lists of a trace *)

Lemma aligned_new z : aligned (new_ZoneSeries z).
Proof. reflexivity. Qed.

Lemma aligned_clear_trace s : aligned (clear_trace s).
Proof. reflexivity. Qed.

Lemma aligned_reset_zone s : aligned (reset_zone s).
Proof. reflexivity. Qed.

Lemma aligned_set_last_autotune_sp (sp : PyVal) s :
  aligned s -> aligned (set_last_autotune_sp sp s).
Proof. intros H; exact H. Qed.

Lemma aligned_record_telemetry obj (dt : datetime) (pv_val : option float) s :
  aligned s -> aligned (record_telemetry obj dt pv_val s).
Proof.
  unfold aligned. destruct pv_val as [x|]; simpl; [|trivial].
  intros H. rewrite !length_app. simpl. lia.
Qed.

Lemma all_aligned_ensure sbz z : all_aligned sbz -> all_aligned (_ensure_zone z sbz).
Proof.
  intros H z' s'. unfold _ensure_zone.
  destruct (sbz !! z) eqn:E; [apply H|].
  destruct (decide (z' = z)) as [->|Hne].
  - rewrite lookup_insert_eq. intros [= <-]. apply aligned_new.
  - rewrite lookup_insert_ne by congruence. apply H.
Qed.

Lemma all_aligned_alter (f : ZoneSeries -> ZoneSeries) sbz z :
  (forall s, aligned s -> aligned (f s)) ->
  all_aligned sbz -> all_aligned (alter f z sbz).
Proof.
  intros Hf H z' s'. destruct (decide (z' = z)) as [->|Hne].
  - rewrite lookup_alter_eq. destruct (sbz !! z) as [s0|] eqn:E; simpl; [|discriminate].
    intros [= <-]. apply Hf. now apply (H z).
  - rewrite lookup_alter_ne by congruence. apply H.
Qed.

Lemma all_aligned_ingest sbz line :
  all_aligned sbz -> all_aligned (fst (_ingest_line sbz line)).
Proof.
  intros H. rewrite ingest_of_decoded.
  destruct (decoded line) as [[]|] eqn:E; try exact H.
  rewrite (ingest_dict _ _ _ E).
  repeat match goal with
         | |- context [if ?b then _ else _] => destruct b
         | |- context [match ?x with _ => _ end] => destruct x
         end; simpl; try exact H; try (now apply all_aligned_ensure).
  - apply all_aligned_alter; [apply aligned_set_last_autotune_sp|].
    now apply all_aligned_ensure.
  - apply all_aligned_alter; [apply aligned_record_telemetry|].
    now apply all_aligned_ensure.
Qed.

Lemma all_aligned_run sbz (o : operation) :
  all_aligned sbz -> all_aligned (run sbz o).
Proof.
  intros H. destruct o as [line|z|]; simpl.
  - now apply all_aligned_ingest.
  - apply all_aligned_alter; [intros; apply aligned_clear_trace | exact H].
  - intros z s. unfold reset_all. rewrite lookup_fmap.
    destruct (sbz !! z); simpl; [|discriminate].
    intros [= <-]. apply aligned_reset_zone.
Qed.

Lemma all_aligned_initial : all_aligned initial_series.
Proof.
  intros z s H. apply elem_of_list_to_map_2 in H.
  apply list_elem_of_In in H. simpl in H.
  repeat (destruct H as [[= <- <-] | H]; [apply aligned_new|]).
  destruct H.
Qed.

Lemma all_aligned_load_lines (lines : list string) sbz (n_lines n_tel : nat) :
  all_aligned sbz -> all_aligned (fst (load_lines sbz n_lines n_tel lines)).
Proof.
  revert sbz n_lines n_tel.
  induction lines as [|line rest IH]; intros sbz n_lines n_tel H; [exact H|].
  simpl. pose proof (all_aligned_ingest sbz line H) as H'.
  destruct (_ingest_line sbz line) as [sbz' [r|]]; [now apply IH | exact H'].
Qed.

Lemma all_aligned_tail_lines (lines : list string) sbz (touched : gset Z) :
  all_aligned sbz -> all_aligned (fst (tail_lines sbz touched lines)).
Proof.
  revert sbz touched.
  induction lines as [|line rest IH]; intros sbz touched H; [exact H|].
  rewrite tail_lines_step. pose proof (all_aligned_ingest sbz line H) as H'.
  destruct (_ingest_line sbz line) as [sbz' [[z|]|]]; simpl in *.
  - now apply IH.
  - destruct (zone_guess line); now apply IH.
  - exact H'.
Qed.

(** The same through a full load and through a tick. *)
Lemma all_aligned_open_log (path : string) (file : option string) (v : Viewer) :
  all_aligned (series_by_zone v) ->
  all_aligned (series_by_zone (fst (open_log path file v))).
Proof.
  intros H. unfold open_log. destruct file as [content|]; [|exact H].
  pose proof (all_aligned_load_lines (Text.readlines content)
                (reset_all (series_by_zone v)) 0 0) as HL.
  destruct (load_lines (reset_all (series_by_zone v)) 0 0 (Text.readlines content))
    as [sbz [[n_lines n_tel]|]]; simpl in *; apply HL;
    apply (all_aligned_run _ ResetAll H).
Qed.

Lemma all_aligned_tail_tick (content : string) (v : Viewer) :
  all_aligned (series_by_zone v) ->
  all_aligned (series_by_zone (fst (_tail_tick content v))).
Proof.
  intros H. unfold _tail_tick.
  destruct (_tail_fp v); [|exact H].
  destruct (current_log_path v); [|exact H].
  destruct (Text.readlines (Text.skip (_tail_pos v) content)) as [|l ls]; [exact H|].
  pose proof (all_aligned_tail_lines (l :: ls) (series_by_zone v) ∅ H) as HT.
  now destruct (tail_lines (series_by_zone v) ∅ (l :: ls)).
Qed.

(** C10. From a state in which every zone's timestamp list and value list
    have one length, any sequence of line ingestions (telemetry, event or
    other), trace clearings and full-reload resets leads to such a state. *)
Theorem trace_lists_stay_aligned (os : list operation) sbz :
  all_aligned sbz -> all_aligned (run_all sbz os).
Proof.
  unfold run_all. revert sbz.
  induction os as [|o os IH]; intros sbz H; simpl; [exact H|].
  apply IH. now apply all_aligned_run.
Qed.

(** ** The scenario *)

Lemma run_all_cons sbz (o : operation) (os : list operation) :
  run_all sbz (o :: os) = run_all (run sbz o) os.
Proof. reflexivity. Qed.

(** C8. From a state in which zone 1 is empty, the two telemetry lines
    and the event line of the scenario, ingested in order, leave zone 1
    with the series [(1700000000, 72.5), (1700000010, 73.1)], the snapshot
    pv 73.1 and the snapshot autotune setpoint 80.0. The hypotheses say
    what the libraries do on this input: [json.loads] decodes the three
    lines to the objects they spell, and the two epoch seconds convert to
    the datetimes [d1] and [d2]. *)
Theorem scenario_result sbz (d1 d2 : datetime) :
  zone_state sbz 1 = new_ZoneSeries 1 ->
  decoded scenario_line1 = Some (PDict scenario_obj1) ->
  decoded scenario_line2 = Some (PDict scenario_obj2) ->
  decoded scenario_line3 = Some (PDict scenario_obj3) ->
  epoch_to_dt_local 1700000000 = Some d1 ->
  epoch_to_dt_local 1700000010 = Some d2 ->
  let s := zone_state
             (run_all sbz [Ingest scenario_line1; Ingest scenario_line2;
                           Ingest scenario_line3]) 1 in
  t s = [d1; d2] /\
  pv s = [72.5%float; 73.1%float] /\
  last_pv s = PFloat 73.1 /\
  last_autotune_sp s = PFloat 80.
Proof.
  intros H0 H1 H2 H3 Hd1 Hd2. cbv zeta.
  assert (M1 : telemetry_message scenario_line1 scenario_obj1 1)
    by (repeat split; first [exact H1 | reflexivity]).
  assert (M2 : telemetry_message scenario_line2 scenario_obj2 1)
    by (repeat split; first [exact H2 | reflexivity]).
  assert (M3 : event_message scenario_line3 scenario_obj3 1)
    by (repeat split; first [exact H3 | reflexivity]).
  assert (T1 : line_dt scenario_obj1 = Some d1) by (rewrite <- Hd1; reflexivity).
  assert (T2 : line_dt scenario_obj2 = Some d2) by (rewrite <- Hd2; reflexivity).
  rewrite !run_all_cons. unfold run, run_all, fold_left.
  rewrite (ingest_telemetry sbz _ _ _ d1 (Some 72.5%float) M1 T1 eq_refl).
  simpl fst.
  rewrite (ingest_telemetry _ _ _ _ d2 (Some 73.1%float) M2 T2 eq_refl).
  simpl fst.
  rewrite (ingest_event _ _ _ _ M3).
  change (is_None (event_sp scenario_obj3)) with false. simpl fst.
  rewrite !zone_state_alter, H0. repeat split.
Qed.

End Properties.

(** * Further properties of the code *)

Section MoreProperties.

Context {rt : PyRuntime}.

Implicit Types (sbz : gmap Z ZoneSeries) (line : string)
  (obj : list (string * PyVal)) (z : Z) (s : ZoneSeries).

(** ** The shape of one ingestion *)

Lemma names_zone_unique line z z' :
  names_zone line z -> names_zone line z' -> z' = z.
Proof.
  intros (obj & H & _ & Hz) (obj' & H' & _ & Hz'). congruence.
Qed.

Lemma eq_str_event_not_telemetry (v : PyVal) :
  eq_str v "event" = true -> eq_str v "telemetry" = false.
Proof.
  destruct v; simpl; try discriminate.
  intros H. apply String.eqb_eq in H. now subst.
Qed.

(** A line either changes nothing, whatever the state, or it is a message
    for one zone [z] and acts on the record of [z] alone, by a function the
    line fixes: the identity, the assignment of an event's setpoint that is
    not [None], or the recording of a telemetry line. *)
Lemma ingest_shape line :
  ((forall sbz, fst (_ingest_line sbz line) = sbz) /\
   (forall z, ~ names_zone line z)) \/
  exists z (f : ZoneSeries -> ZoneSeries),
    names_zone line z /\
    (f = (fun s => s) \/
     (exists obj, event_message line obj z /\ event_sp obj <> PNone /\
        f = set_last_autotune_sp (event_sp obj)) \/
     (exists obj (dt : datetime) (pv_val : option float),
        telemetry_message line obj z /\ line_dt obj = Some dt /\
        line_pv_val (dict_get "pv_c" obj) = Some pv_val /\
        f = record_telemetry obj dt pv_val)) /\
    forall sbz, fst (_ingest_line sbz line) = alter f z (_ensure_zone z sbz).
Proof.
  destruct (decoded line) as [v|] eqn:E.
  2:{ left. split.
      - intros sbz. now rewrite (ingest_undecoded sbz line E).
      - intros z (obj & H & _). congruence. }
  destruct v as [| | | | | |obj];
    try (left; split;
         [intros sbz; rewrite ingest_of_decoded, E; reflexivity
         |intros z (obj & H & _); congruence]).
  assert (Hid : forall z sbz, _ensure_zone z sbz = alter (fun s => s) z (_ensure_zone z sbz)).
  { intros z sbz. symmetry. now apply alter_id. }
  destruct (eq_str (dict_get "type" obj) "event") eqn:Hev.
  - destruct (isinstance_int (dict_get "zone" obj)) as [z|] eqn:Hz.
    + right. exists z.
      assert (Hn : names_zone line z) by (exists obj; auto).
      destruct (is_None (event_sp obj)) eqn:Hsp.
      * exists (fun s => s). repeat split; auto.
        intros sbz. rewrite (ingest_dict _ _ _ E), Hev, Hz, Hsp. simpl. apply Hid.
      * exists (set_last_autotune_sp (event_sp obj)). repeat split; auto.
        -- right; left. exists obj. repeat split; auto. now apply is_None_false.
        -- intros sbz. now rewrite (ingest_dict _ _ _ E), Hev, Hz, Hsp.
    + left. split.
      * intros sbz. now rewrite (ingest_dict _ _ _ E), Hev, Hz.
      * intros z (obj' & H & _ & Hz'). congruence.
  - destruct (eq_str (dict_get "type" obj) "telemetry") eqn:Htel.
    2:{ left. split.
        - intros sbz. now rewrite (ingest_dict _ _ _ E), Hev, Htel.
        - intros z (obj' & H & [Ht|Ht] & _);
            assert (obj' = obj) by congruence; subst; congruence. }
    destruct (isinstance_int (dict_get "zone" obj)) as [z|] eqn:Hz.
    2:{ left. split.
        - intros sbz. now rewrite (ingest_dict _ _ _ E), Hev, Htel, Hz.
        - intros z (obj' & H & _ & Hz'). congruence. }
    right. exists z.
    assert (Hn : names_zone line z) by (exists obj; auto).
    destruct (line_dt obj) as [dt|] eqn:Hdt.
    + destruct (line_pv_val (dict_get "pv_c" obj)) as [pv_val|] eqn:Hpv.
      * exists (record_telemetry obj dt pv_val). repeat split; auto.
        -- right; right. exists obj, dt, pv_val. repeat split; auto.
        -- intros sbz. now rewrite (ingest_dict _ _ _ E), Hev, Htel, Hz, Hdt, Hpv.
      * exists (fun s => s). repeat split; auto.
        intros sbz. rewrite (ingest_dict _ _ _ E), Hev, Htel, Hz, Hdt, Hpv. apply Hid.
    + exists (fun s => s). repeat split; auto.
      intros sbz. rewrite (ingest_dict _ _ _ E), Hev, Htel, Hz, Hdt. apply Hid.
Qed.

(** The same, read at one zone. *)
Lemma ingest_zone_update sbz line z :
  exists f : ZoneSeries -> ZoneSeries,
    (f = (fun s => s) \/
     (exists obj, event_message line obj z /\ event_sp obj <> PNone /\
        f = set_last_autotune_sp (event_sp obj)) \/
     (exists obj (dt : datetime) (pv_val : option float),
        telemetry_message line obj z /\ line_dt obj = Some dt /\
        line_pv_val (dict_get "pv_c" obj) = Some pv_val /\
        f = record_telemetry obj dt pv_val)) /\
    zone_state (fst (_ingest_line sbz line)) z = f (zone_state sbz z).
Proof.
  destruct (ingest_shape line) as [[H _] | (z0 & f & _ & Hf & H)]; rewrite H.
  - exists (fun s => s). auto.
  - destruct (decide (z = z0)) as [->|Hne].
    + exists f. split; [exact Hf | apply zone_state_alter].
    + exists (fun s => s). split; [now left|].
      unfold zone_state. now rewrite alter_ensure_other by exact Hne.
Qed.

(** ** One zone at a time *)

(** X1. A line changes the record of no zone but the one it names. *)
Theorem ingest_leaves_other_zones sbz line z' :
  ~ names_zone line z' ->
  fst (_ingest_line sbz line) !! z' = sbz !! z'.
Proof.
  intros Hn.
  destruct (ingest_shape line) as [[H _] | (z & f & Hz & _ & H)]; rewrite H.
  - reflexivity.
  - apply alter_ensure_other. intros ->. now apply Hn.
Qed.

Lemma ingest_zonewise sbz sbz' line z :
  zone_state sbz z = zone_state sbz' z ->
  zone_state (fst (_ingest_line sbz line)) z =
  zone_state (fst (_ingest_line sbz' line)) z.
Proof.
  intros Heq.
  destruct (ingest_shape line) as [[H _] | (z0 & f & _ & _ & H)]; rewrite !H.
  - exact Heq.
  - destruct (decide (z = z0)) as [->|Hne].
    + rewrite !zone_state_alter. now rewrite Heq.
    + unfold zone_state. now rewrite !alter_ensure_other by exact Hne.
Qed.

(** X2. What a sequence of lines makes of a zone depends on the lines and
    on that zone's record only: from two states that agree on zone [z], the
    states after the lines agree on zone [z], whatever the other zones
    hold. *)
Theorem ingest_acts_zone_by_zone (lines : list string) sbz sbz' z :
  zone_state sbz z = zone_state sbz' z ->
  zone_state (run_all sbz (List.map Ingest lines)) z =
  zone_state (run_all sbz' (List.map Ingest lines)) z.
Proof.
  revert sbz sbz'. induction lines as [|line lines IH]; intros sbz sbz' Heq.
  - exact Heq.
  - change (zone_state (run_all (fst (_ingest_line sbz line)) (List.map Ingest lines)) z =
            zone_state (run_all (fst (_ingest_line sbz' line)) (List.map Ingest lines)) z).
    apply IH. now apply ingest_zonewise.
Qed.

(** X3. Ingestion never forgets a zone, and the only zone it can add is
    the one the line names, which is known afterwards. *)
Theorem ingest_registers_the_named_zone sbz line :
  let sbz' := fst (_ingest_line sbz line) in
  dom sbz ⊆ dom sbz' /\
  (forall z, z ∈ dom sbz' -> z ∈ dom sbz \/ names_zone line z) /\
  (forall z, names_zone line z -> z ∈ dom sbz').
Proof.
  cbv zeta.
  assert (Hdom : forall z (f : ZoneSeries -> ZoneSeries),
             dom (alter f z (_ensure_zone z sbz)) = {[z]} ∪ dom sbz).
  { intros z f. apply set_eq. intros z'.
    rewrite elem_of_union, elem_of_singleton, !elem_of_dom.
    destruct (decide (z' = z)) as [->|Hne].
    - rewrite lookup_alter_eq, ensure_zone_lookup. simpl. split; [auto | eauto].
    - rewrite alter_ensure_other by exact Hne. tauto. }
  destruct (ingest_shape line) as [[H Hn] | (z & f & Hz & _ & H)]; rewrite H.
  - repeat split; auto. intros z Hz. now destruct (Hn z).
  - rewrite Hdom. repeat split.
    + apply union_subseteq_r.
    + intros z' Hz'. apply elem_of_union in Hz' as [Hz'|Hz']; [|now left].
      apply elem_of_singleton in Hz'. subst. now right.
    + intros z' Hz'. rewrite (names_zone_unique _ _ _ Hz Hz').
      apply elem_of_union. left. now apply elem_of_singleton.
Qed.

(** ** The series of a zone *)

Lemma line_pv_val_some (v : PyVal) (x : float) :
  line_pv_val v = Some (Some x) <-> is_nan v = false /\ py_float v = Some x.
Proof.
  unfold line_pv_val. destruct (is_nan v).
  - split; [discriminate | intros [? _]; discriminate].
  - destruct (py_float v); split.
    + intros [= ->]. auto.
    + intros [_ [= ->]]. reflexivity.
    + discriminate.
    + intros [_ ?]. discriminate.
Qed.

Lemma run_all_ingest_cons sbz line (lines : list string) :
  run_all sbz (List.map Ingest (line :: lines)) =
  run_all (fst (_ingest_line sbz line)) (List.map Ingest lines).
Proof. reflexivity. Qed.

Lemma ingest_sample sbz line z (dt : datetime) (x : float) :
  sample line z dt x ->
  snd (_ingest_line sbz line) = Returns (Some z) /\
  t (zone_state (fst (_ingest_line sbz line)) z) = (t (zone_state sbz z) ++ [dt])%list /\
  pv (zone_state (fst (_ingest_line sbz line)) z) = (pv (zone_state sbz z) ++ [x])%list.
Proof.
  intros (obj & Hmsg & Hdt & Hnan & Hx).
  assert (Hpv : line_pv_val (dict_get "pv_c" obj) = Some (Some x))
    by (apply line_pv_val_some; auto).
  rewrite (ingest_telemetry sbz _ _ _ dt (Some x) Hmsg Hdt Hpv). simpl.
  rewrite zone_state_alter. simpl. auto.
Qed.

(** A line that is no sample for zone [z] leaves the series of [z]. *)
Lemma no_sample_keeps_series sbz line z :
  (forall (dt : datetime) (x : float), ~ sample line z dt x) ->
  t (zone_state (fst (_ingest_line sbz line)) z) = t (zone_state sbz z) /\
  pv (zone_state (fst (_ingest_line sbz line)) z) = pv (zone_state sbz z).
Proof.
  intros Hno.
  destruct (ingest_zone_update sbz line z) as (f & Hf & ->).
  destruct Hf as [-> | [(obj & _ & _ & ->) | (obj & dt & pv_val & Hm & Hdt & Hpv & ->)]];
    simpl; auto.
  destruct pv_val as [x|]; auto.
  destruct (Hno dt x). exists obj. apply line_pv_val_some in Hpv. tauto.
Qed.

(** X4. The series of a zone is the points of the sample lines for that
    zone, in the order the lines came. [points] says of each line what it
    is: [Some (dt, x)] for a sample of zone [z] with that point, [None] for
    a line that is no sample of zone [z]. *)
Theorem series_is_the_samples_in_arrival_order (lines : list string)
    (points : list (option (datetime * float))) sbz z :
  Forall2 (fun line p =>
             match p with
             | Some (dt, x) => sample line z dt x
             | None => forall dt x, ~ sample line z dt x
             end) lines points ->
  let s := zone_state sbz z in
  let s' := zone_state (run_all sbz (List.map Ingest lines)) z in
  t s' = (t s ++ List.map fst (omap id points))%list /\
  pv s' = (pv s ++ List.map snd (omap id points))%list.
Proof.
  intros H. cbv zeta. revert sbz.
  induction H as [|line p lines points Hp _ IH]; intros sbz.
  - simpl. now rewrite !app_nil_r.
  - rewrite run_all_ingest_cons.
    destruct (IH (fst (_ingest_line sbz line))) as [IHt IHpv].
    rewrite IHt, IHpv. destruct p as [[dt x]|].
    + destruct (ingest_sample sbz line z dt x Hp) as (_ & Ht & Hpv).
      rewrite Ht, Hpv. simpl. now rewrite <- !app_assoc.
    + destruct (no_sample_keeps_series sbz line z Hp) as [Ht Hpv].
      now rewrite Ht, Hpv.
Qed.

(** X5. Under ingestion a series only grows at its end: the series of
    every zone before any lines is a prefix of its series after them. *)
Theorem series_only_grows (lines : list string) sbz z :
  let s := zone_state sbz z in
  let s' := zone_state (run_all sbz (List.map Ingest lines)) z in
  t s `prefix_of` t s' /\ pv s `prefix_of` pv s'.
Proof.
  cbv zeta. revert sbz. induction lines as [|line lines IH]; intros sbz.
  - split; reflexivity.
  - rewrite run_all_ingest_cons.
    destruct (IH (fst (_ingest_line sbz line))) as [IHt IHpv].
    destruct (ingest_zone_update sbz line z) as (f & Hf & Hs).
    rewrite Hs in IHt, IHpv.
    assert (Hp : t (zone_state sbz z) `prefix_of` t (f (zone_state sbz z)) /\
                 pv (zone_state sbz z) `prefix_of` pv (f (zone_state sbz z))).
    { destruct Hf as [-> | [(obj & _ & _ & ->) | (obj & dt & pv_val & _ & _ & _ & ->)]];
        simpl; try (split; reflexivity).
      destruct pv_val; split; try reflexivity; now apply prefix_app_r. }
    destruct Hp as [Hpt Hppv]. split; etransitivity; eauto.
Qed.

(** ** The stored autotune setpoint *)

Lemma truthy_not_None (v : PyVal) : truthy v = true -> v <> PNone.
Proof. destruct v; simpl; congruence. Qed.

Lemma py_or_keeps_presence (a b : PyVal) : b <> PNone -> py_or a b <> PNone.
Proof.
  intros Hb. unfold py_or. destruct (truthy a) eqn:Ha; [|exact Hb].
  now apply truthy_not_None.
Qed.

(** X6. Once a zone has an autotune setpoint, no line makes it absent
    again: whatever is ingested, the stored setpoint stays other than
    [None]. *)
Theorem setpoint_never_becomes_absent (lines : list string) sbz z :
  last_autotune_sp (zone_state sbz z) <> PNone ->
  last_autotune_sp (zone_state (run_all sbz (List.map Ingest lines)) z) <> PNone.
Proof.
  revert sbz. induction lines as [|line lines IH]; intros sbz H; [exact H|].
  rewrite run_all_ingest_cons. apply IH.
  destruct (ingest_zone_update sbz line z) as (f & Hf & ->).
  destruct Hf as [-> | [(obj & _ & Hsp & ->) | (obj & dt & pv_val & _ & _ & _ & ->)]];
    simpl; auto.
  unfold telemetry_sp. now repeat apply py_or_keeps_presence.
Qed.

Lemma py_or_chain (vs : list PyVal) (dflt : PyVal) :
  fold_right py_or dflt vs =
  match List.find truthy vs with Some v => v | None => dflt end.
Proof.
  induction vs as [|a vs IH]; simpl; [reflexivity|].
  unfold py_or at 1. now destruct (truthy a).
Qed.

(** X7. A telemetry line that is recorded stores as autotune setpoint the
    first of its three alias values that is truthy, and keeps the stored
    one when none is: an alias that is absent, null, 0, 0.0, false or empty
    is passed over. *)
Theorem telemetry_stores_first_truthy_alias sbz line obj z (dt : datetime)
    (pv_val : option float) :
  telemetry_message line obj z ->
  line_dt obj = Some dt ->
  line_pv_val (dict_get "pv_c" obj) = Some pv_val ->
  last_autotune_sp (zone_state (fst (_ingest_line sbz line)) z) =
  match List.find truthy (telemetry_alias_values obj) with
  | Some v => v
  | None => last_autotune_sp (zone_state sbz z)
  end.
Proof.
  intros Hmsg Hdt Hpv.
  rewrite (ingest_telemetry sbz _ _ _ dt pv_val Hmsg Hdt Hpv). simpl fst.
  rewrite zone_state_alter. simpl.
  apply (py_or_chain (telemetry_alias_values obj)).
Qed.

(** X8. An event stores the first of the four alias values
    [autotune_sp_c], [autotune_setpoint_c], [autotune_setpoint], [sp] that
    is truthy; when none is, it stores the value of [setpoint] unless that
    is absent or null, so that 0 is stored from [setpoint] and from no
    other alias; otherwise it keeps the stored setpoint. *)
Theorem event_stores_first_truthy_alias sbz line obj z :
  event_message line obj z ->
  last_autotune_sp (zone_state (fst (_ingest_line sbz line)) z) =
  match List.find truthy (event_alias_values obj) with
  | Some v => v
  | None =>
      if is_None (dict_get "setpoint" obj)
      then last_autotune_sp (zone_state sbz z)
      else dict_get "setpoint" obj
  end.
Proof.
  intros Hmsg. rewrite (ingest_event sbz _ _ _ Hmsg).
  pose proof (py_or_chain (event_alias_values obj) (dict_get "setpoint" obj)) as Hsp.
  change (fold_right py_or (dict_get "setpoint" obj) (event_alias_values obj))
    with (event_sp obj) in Hsp.
  destruct (List.find truthy (event_alias_values obj)) as [v|] eqn:Hf; rewrite Hsp.
  - apply find_some in Hf as [_ Hv].
    assert (Hn : is_None v = false) by (destruct v; simpl in *; congruence).
    rewrite Hn. simpl fst. now rewrite zone_state_alter.
  - destruct (is_None (dict_get "setpoint" obj)); simpl fst.
    + now rewrite zone_state_ensure.
    + now rewrite zone_state_alter.
Qed.

(** ** How a call of [_ingest_line] ends *)

Lemma ingest_outcome sbz line :
  snd (_ingest_line sbz line) =
  match decoded line with
  | None => Returns None
  | Some (PDict obj) =>
      if eq_str (dict_get "type" obj) "event" then Returns None
      else if negb (eq_str (dict_get "type" obj) "telemetry") then Returns None
      else
        match isinstance_int (dict_get "zone" obj) with
        | None => Returns None
        | Some z =>
            match line_dt obj with
            | None => Returns (Some z)
            | Some _ =>
                match line_pv_val (dict_get "pv_c" obj) with
                | None => Raises
                | Some _ => Returns (Some z)
                end
            end
        end
  | Some _ => Raises
  end.
Proof.
  rewrite ingest_of_decoded.
  destruct (decoded line) as [[]|] eqn:E; try reflexivity.
  rewrite (ingest_dict _ _ _ E).
  repeat match goal with
         | |- context [if ?b then _ else _] => destruct b
         | |- context [match ?x with _ => _ end] => destruct x
         end; reflexivity.
Qed.

Lemma line_pv_val_none (v : PyVal) :
  line_pv_val v = None <-> is_nan v = false /\ py_float v = None.
Proof.
  unfold line_pv_val. destruct (is_nan v).
  - split; [discriminate | intros [? _]; discriminate].
  - destruct (py_float v); split; try discriminate; auto.
    intros [_ ?]. discriminate.
Qed.

(** X9. [_ingest_line] lets an exception escape in two cases and no
    other: the line decodes to a JSON value that is not an object, or it is
    a telemetry line with an integer zone and a resolved timestamp whose
    [pv_c] is neither null nor NaN and is refused by [float]. *)
Theorem ingest_raises_iff sbz line :
  snd (_ingest_line sbz line) = Raises <->
  (exists v, decoded line = Some v /\ forall obj, v <> PDict obj) \/
  (exists obj z (dt : datetime),
     telemetry_message line obj z /\ line_dt obj = Some dt /\
     is_nan (dict_get "pv_c" obj) = false /\
     py_float (dict_get "pv_c" obj) = None).
Proof.
  rewrite ingest_outcome. split.
  - destruct (decoded line) as [v|] eqn:E; [|discriminate].
    destruct v as [| | | | | |obj];
      try (intros _; left; eexists; split; [reflexivity | discriminate]).
    destruct (eq_str (dict_get "type" obj) "event"); [discriminate|].
    destruct (eq_str (dict_get "type" obj) "telemetry") eqn:Htel; [|discriminate].
    destruct (isinstance_int (dict_get "zone" obj)) as [z|] eqn:Hz; [|discriminate].
    destruct (line_dt obj) as [dt|] eqn:Hdt; [|discriminate].
    destruct (line_pv_val (dict_get "pv_c" obj)) eqn:Hpv; [discriminate|].
    intros _. right. exists obj, z, dt. apply line_pv_val_none in Hpv.
    repeat split; tauto.
  - intros [(v & E & Hv) | (obj & z & dt & (E & Htel & Hz) & Hdt & Hnan & Hx)];
      rewrite E.
    + destruct v; try reflexivity. now destruct (Hv d).
    + rewrite (eq_str_telemetry_not_event _ Htel), Htel, Hz, Hdt. simpl.
      assert (Hpv : line_pv_val (dict_get "pv_c" obj) = None)
        by (apply line_pv_val_none; auto).
      now rewrite Hpv.
Qed.

(** X10. [_ingest_line] returns zone [z] exactly for the telemetry lines
    with integer zone [z] on which it does not raise, the lines it drops
    for want of a timestamp included: an event returns no zone. *)
Theorem ingest_returns_zone_iff sbz line z :
  snd (_ingest_line sbz line) = Returns (Some z) <->
  exists obj,
    telemetry_message line obj z /\
    (line_dt obj = None \/ line_pv_val (dict_get "pv_c" obj) <> None).
Proof.
  rewrite ingest_outcome. split.
  - destruct (decoded line) as [v|] eqn:E; [|discriminate].
    destruct v as [| | | | | |obj]; try discriminate.
    destruct (eq_str (dict_get "type" obj) "event"); [discriminate|].
    destruct (eq_str (dict_get "type" obj) "telemetry") eqn:Htel; [|discriminate].
    destruct (isinstance_int (dict_get "zone" obj)) as [z0|] eqn:Hz; [|discriminate].
    destruct (line_dt obj) as [dt|] eqn:Hdt.
    + destruct (line_pv_val (dict_get "pv_c" obj)) eqn:Hpv; [|discriminate].
      intros [= ->]. exists obj. repeat split; auto. right. congruence.
    + intros [= ->]. exists obj. repeat split; auto.
  - intros (obj & (E & Htel & Hz) & H). rewrite E.
    rewrite (eq_str_telemetry_not_event _ Htel), Htel, Hz. simpl.
    destruct (line_dt obj); [|reflexivity].
    destruct H as [H|H]; [discriminate|].
    now destruct (line_pv_val (dict_get "pv_c" obj)).
Qed.

Lemma raises_spec sbz line :
  raises line = true <-> snd (_ingest_line sbz line) = Raises.
Proof.
  unfold raises. rewrite (ingest_outcome_of_line ∅ sbz).
  destruct (snd (_ingest_line sbz line)); split; congruence.
Qed.

(** ** Each record under its own zone id *)

Lemma keyed_ensure sbz z : keyed sbz -> keyed (_ensure_zone z sbz).
Proof.
  intros H z' s'. unfold _ensure_zone.
  destruct (sbz !! z) eqn:E; [apply H|].
  destruct (decide (z' = z)) as [->|Hne].
  - rewrite lookup_insert_eq. now intros [= <-].
  - rewrite lookup_insert_ne by congruence. apply H.
Qed.

Lemma keyed_alter (f : ZoneSeries -> ZoneSeries) sbz z :
  (forall s, zone (f s) = zone s) -> keyed sbz -> keyed (alter f z sbz).
Proof.
  intros Hf H z' s'. destruct (decide (z' = z)) as [->|Hne].
  - rewrite lookup_alter_eq. destruct (sbz !! z) as [s0|] eqn:E; simpl; [|discriminate].
    intros [= <-]. rewrite Hf. now apply H.
  - rewrite lookup_alter_ne by congruence. apply H.
Qed.

Lemma keyed_ingest sbz line : keyed sbz -> keyed (fst (_ingest_line sbz line)).
Proof.
  intros H.
  destruct (ingest_shape line) as [[Hs _] | (z & f & _ & Hf & Hs)]; rewrite Hs; [exact H|].
  apply keyed_alter; [|now apply keyed_ensure].
  destruct Hf as [-> | [(obj & _ & _ & ->) | (obj & dt & pv_val & _ & _ & _ & ->)]];
    reflexivity.
Qed.

Lemma keyed_reset_all sbz : keyed sbz -> keyed (reset_all sbz).
Proof.
  intros H z s. unfold reset_all. rewrite lookup_fmap.
  destruct (sbz !! z) as [s0|] eqn:E; simpl; [|discriminate].
  intros [= <-]. simpl. now apply H.
Qed.

Lemma keyed_run sbz (o : operation) : keyed sbz -> keyed (run sbz o).
Proof.
  intros H. destruct o as [line|z|]; simpl.
  - now apply keyed_ingest.
  - now apply keyed_alter.
  - now apply keyed_reset_all.
Qed.

Lemma keyed_initial : keyed initial_series.
Proof.
  intros z s H. apply elem_of_list_to_map_2 in H.
  apply list_elem_of_In in H. simpl in H.
  repeat (destruct H as [[= <- <-] | H]; [reflexivity|]).
  destruct H.
Qed.

(** X11. The record stored under a zone id keeps that id in its [zone]
    field through every ingestion, trace clearing and reset. *)
Theorem records_stay_under_their_zone (os : list operation) sbz :
  keyed sbz -> keyed (run_all sbz os).
Proof.
  unfold run_all. revert sbz.
  induction os as [|o os IH]; intros sbz H; simpl; [exact H|].
  apply IH. now apply keyed_run.
Qed.


(** ** The report of a full load *)

Lemma load_lines_report (lines : list string) sbz (n_lines n_tel : nat) :
  snd (load_lines sbz n_lines n_tel lines) =
  if existsb raises lines then None
  else Some (n_lines + List.length lines,
             n_tel + List.length (List.filter (Text.contains telemetry_marker) lines)).
Proof.
  revert sbz n_lines n_tel.
  induction lines as [|line rest IH]; intros sbz n_lines n_tel.
  - simpl. now rewrite !Nat.add_0_r.
  - simpl. destruct (_ingest_line sbz line) as [sbz' out] eqn:E.
    assert (Hr : raises line = true <-> out = Raises)
      by (rewrite (raises_spec sbz), E; reflexivity).
    destruct out as [r|].
    + destruct (raises line); [destruct Hr as [Hr _]; discriminate (Hr eq_refl)|].
      simpl. rewrite IH. destruct (existsb raises rest); [reflexivity|].
      destruct (Text.contains telemetry_marker line); simpl; f_equal; f_equal; lia.
    + destruct Hr as [_ Hr]. now rewrite (Hr eq_refl).
Qed.

Lemma load_lines_until_raise (lines : list string) sbz (n_lines n_tel : nat) :
  fst (load_lines sbz n_lines n_tel lines)
  = run_all sbz (List.map Ingest (until_raise lines)).
Proof.
  revert sbz n_lines n_tel.
  induction lines as [|line rest IH]; intros sbz n_lines n_tel; [reflexivity|].
  simpl. destruct (_ingest_line sbz line) as [sbz' out] eqn:E.
  assert (Hr : raises line = true <-> out = Raises)
    by (rewrite (raises_spec sbz), E; reflexivity).
  assert (Hs : sbz' = run sbz (Ingest line)) by (simpl; now rewrite E).
  destruct out as [r|].
  - destruct (raises line); [destruct Hr as [Hr _]; discriminate (Hr eq_refl)|].
    simpl. rewrite IH. unfold run_all. simpl. now rewrite E.
  - destruct Hr as [_ Hr]. rewrite (Hr eq_refl). unfold run_all. simpl. now rewrite E.
Qed.

(** X13. The loop of a full load, on the lines it reads from the file:
    it ingests them in order up to and including the first that makes
    [_ingest_line] raise, which ends the load in [Failed to read log]; if
    none raises it has ingested them all, counted each as a line, and
    counted as telemetry those whose raw text contains
    ["type": "telemetry"]. *)
Theorem load_loop_stops_at_first_raise (lines : list string) sbz :
  fst (load_lines sbz 0 0 lines) = run_all sbz (List.map Ingest (until_raise lines)) /\
  snd (load_lines sbz 0 0 lines) =
  if existsb raises lines then None
  else Some (List.length lines,
             List.length (List.filter (Text.contains telemetry_marker) lines)).
Proof.
  split; [apply load_lines_until_raise|].
  now rewrite load_lines_report.
Qed.

(** ** Ticks that read nothing *)

Lemma tick_not_tailing (content : string) (v : Viewer) :
  _tail_fp v = None -> _tail_tick content v = (v, Some ∅).
Proof. intros H. unfold _tail_tick. now rewrite H. Qed.

Lemma tick_at_end (content : string) (v : Viewer) :
  String.length content <= _tail_pos v -> _tail_tick content v = (v, Some ∅).
Proof.
  intros H. unfold _tail_tick. rewrite (skip_all _ _ H). simpl.
  destruct (_tail_fp v); [|reflexivity]. now destruct (current_log_path v).
Qed.

(** X14. A full load that fails leaves the viewer without a tailed file,
    also when it was tailing one before: from then on every tick reads
    nothing and changes nothing, whatever the file holds. *)
Theorem failed_load_stops_tailing (path : string) (file : option string)
    (v : Viewer) (content : string) :
  snd (open_log path file v) = FailedToRead ->
  let v' := fst (open_log path file v) in
  _tail_fp v' = None /\ _tail_tick content v' = (v', Some ∅).
Proof.
  intros H. cbv zeta.
  assert (Hfp : _tail_fp (fst (open_log path file v)) = None).
  { unfold open_log in *. destruct file as [c|]; [|discriminate].
    destruct (load_lines (reset_all (series_by_zone v)) 0 0 (Text.readlines c))
      as [sbz [[n m]|]]; [discriminate | reflexivity]. }
  split; [exact Hfp | now apply tick_not_tailing].
Qed.

(** X15. A full load that succeeds leaves the cursor at the end of the
    text it read, so a tick that finds the file as the load left it ingests
    nothing: no line is taken twice. *)
Theorem tick_after_load_reads_nothing (path content : string) (v : Viewer)
    (n_lines n_tel : nat) :
  snd (open_log path (Some content) v) = Opened n_lines n_tel ->
  let v' := fst (open_log path (Some content) v) in
  tailing v' /\
  _tail_pos v' = String.length content /\
  _tail_tick content v' = (v', Some ∅).
Proof.
  intros H. cbv zeta. unfold open_log in *.
  destruct (load_lines (reset_all (series_by_zone v)) 0 0 (Text.readlines content))
    as [sbz [[n m]|]]; [|discriminate].
  simpl. repeat split; try discriminate.
  apply tick_at_end. simpl. lia.
Qed.

(** X16. A second tick over the same text reads nothing: what a tick has
    ingested it does not ingest again. *)
Theorem tick_twice_reads_once (content : string) (v : Viewer) :
  let v' := fst (_tail_tick content v) in
  _tail_tick content v' = (v', Some ∅).
Proof.
  cbv zeta.
  destruct (le_lt_dec (String.length content) (_tail_pos v)) as [Hle|Hlt].
  { rewrite (tick_at_end _ _ Hle). simpl. now apply tick_at_end. }
  destruct (_tail_fp v) as [fp|] eqn:Hfp.
  2:{ rewrite (tick_not_tailing _ _ Hfp). simpl. now apply tick_not_tailing. }
  destruct (current_log_path v) as [path|] eqn:Hpath.
  2:{ assert (H : _tail_tick content v = (v, Some ∅))
        by (unfold _tail_tick; now rewrite Hfp, Hpath).
      rewrite H. exact H. }
  apply tick_at_end. unfold _tail_tick. rewrite Hfp, Hpath.
  pose proof (readlines_nonempty _ (skip_nonempty _ _ Hlt)) as Hne.
  destruct (Text.readlines (Text.skip (_tail_pos v) content)) as [|l ls];
    [now destruct Hne|].
  destruct (tail_lines (series_by_zone v) ∅ (l :: ls)). simpl. lia.
Qed.

(** ** The zones a tick reports, exactly *)

Lemma tail_lines_touched (lines : list string) sbz sbz0 (touched touched' : gset Z) :
  snd (tail_lines sbz touched lines) = Some touched' ->
  forall z, z ∈ touched' <->
    z ∈ touched \/
    exists line, In line lines /\
      (snd (_ingest_line sbz0 line) = Returns (Some z) \/
       (snd (_ingest_line sbz0 line) = Returns None /\ zone_guess line = Some z)).
Proof.
  revert sbz touched. induction lines as [|l rest IH]; intros sbz touched.
  - simpl. intros [= <-] z. split; [auto | intros [H | (line & [] & _)]; exact H].
  - rewrite tail_lines_step.
    pose proof (ingest_outcome_of_line sbz sbz0 l) as Ho.
    destruct (_ingest_line sbz l) as [sbz1 out]. simpl in Ho. subst out.
    destruct (snd (_ingest_line sbz0 l)) as [[z1|]|] eqn:Eo; [| |discriminate].
    + intros H z. rewrite (IH _ _ H z), elem_of_union, elem_of_singleton. split.
      * intros [[-> | Hz] | (line & Hin & Hl)].
        -- right. exists l. split; [now left | now left].
        -- now left.
        -- right. exists line. split; [now right | exact Hl].
      * intros [Hz | (line & [<- | Hin] & Hl)].
        -- left. now right.
        -- destruct Hl as [Hl | [Hl _]]; [|congruence].
           left. left. congruence.
        -- right. now exists line.
    + destruct (zone_guess l) as [g|] eqn:Eg.
      * intros H z. rewrite (IH _ _ H z), elem_of_union, elem_of_singleton. split.
        -- intros [[-> | Hz] | (line & Hin & Hl)].
           ++ right. exists l. split; [now left | right; auto].
           ++ now left.
           ++ right. exists line. split; [now right | exact Hl].
        -- intros [Hz | (line & [<- | Hin] & Hl)].
           ++ left. now right.
           ++ destruct Hl as [Hl | [_ Hl]]; [congruence|].
              left. left. congruence.
           ++ right. now exists line.
      * intros H z. rewrite (IH _ _ H z). split.
        -- intros [Hz | (line & Hin & Hl)]; [now left|].
           right. exists line. split; [now right | exact Hl].
        -- intros [Hz | (line & [<- | Hin] & Hl)]; [now left | |].
           ++ destruct Hl as [Hl | [_ Hl]]; congruence.
           ++ right. now exists line.
Qed.

(** X17. The zones a tick that runs to its end reports are exactly the
    zones [_ingest_line] returned for the lines it read and the zones
    guessed from the text of the lines for which it returned none; a guess
    is not used for a line that returned a zone. *)
Theorem tick_reports_exactly (content : string) (v : Viewer) (touched : gset Z) :
  tailing v ->
  snd (_tail_tick content v) = Some touched ->
  forall z, z ∈ touched <->
    exists line,
      In line (Text.readlines (Text.skip (_tail_pos v) content)) /\
      (snd (_ingest_line (series_by_zone v) line) = Returns (Some z) \/
       (snd (_ingest_line (series_by_zone v) line) = Returns None /\
        zone_guess line = Some z)).
Proof.
  intros [Hfp Hpath]. unfold _tail_tick.
  destruct (_tail_fp v) as [fp|]; [|now destruct Hfp].
  destruct (current_log_path v) as [path|]; [|now destruct Hpath].
  destruct (Text.readlines (Text.skip (_tail_pos v) content)) as [|l ls] eqn:E.
  - simpl. intros [= <-] z. split; [intros Hz; now apply not_elem_of_empty in Hz|].
    intros (line & [] & _).
  - pose proof (tail_lines_touched (l :: ls) (series_by_zone v) (series_by_zone v) ∅) as H.
    destruct (tail_lines (series_by_zone v) ∅ (l :: ls)) as [sbz r]. simpl in *.
    intros -> z. rewrite (H touched eq_refl z). split.
    + intros [Hz | Hl]; [now apply not_elem_of_empty in Hz | exact Hl].
    + intros Hl. now right.
Qed.

(** ** Tailing and loading *)

Lemma string_app_cons (x : ascii) (a b : string) :
  (String x a ++ b = String x (a ++ b))%string.
Proof. reflexivity. Qed.

Lemma string_app_assoc (a b c : string) :
  ((a ++ b) ++ c = a ++ (b ++ c))%string.
Proof.
  induction a as [|x a IH]; [reflexivity|].
  rewrite !string_app_cons. now f_equal.
Qed.

Lemma skip_app (a b : string) : Text.skip (String.length a) (a ++ b) = b.
Proof.
  induction a as [|x a IH]; [now destruct b|].
  rewrite string_app_cons. exact IH.
Qed.

Lemma lines_acc_cons (cur : string) (c : ascii) (r : string) :
  Text.lines_acc cur (String c r) =
  if Ascii.eqb c "010"
  then Text.rev (String "010" cur) :: Text.lines_acc EmptyString r
  else if Ascii.eqb c "013" then
    match r with
    | String c' r' =>
        if Ascii.eqb c' "010"
        then Text.rev (String "010" cur) :: Text.lines_acc EmptyString r'
        else Text.rev (String "010" cur) :: Text.lines_acc EmptyString r
    | EmptyString => [Text.rev (String "010" cur)]
    end
  else Text.lines_acc (String c cur) r.
Proof. reflexivity. Qed.

(** The lines of a text that continues after a newline are the lines up
    to the newline and then the lines of the rest. *)
Lemma lines_acc_app_newline (a b cur : string) :
  Text.lines_acc cur (a ++ Text.newline ++ b) =
  (Text.lines_acc cur (a ++ Text.newline) ++ Text.lines_acc EmptyString b)%list.
Proof.
  revert cur. induction a as [|c a IH]; intros cur.
  - reflexivity.
  - rewrite !string_app_cons, !lines_acc_cons.
    destruct (Ascii.eqb c "010") eqn:Hn; [simpl; f_equal; apply IH|].
    destruct (Ascii.eqb c "013") eqn:Hr; [|apply IH].
    destruct a as [|c' a']; [reflexivity|].
    specialize (IH EmptyString).
    rewrite !string_app_cons in *. lazy beta iota.
    destruct (Ascii.eqb c' "010") eqn:Hn'.
    + rewrite !lines_acc_cons, Hn' in IH.
      rewrite <- app_comm_cons in IH |- *. injection IH as IH. now f_equal.
    + rewrite <- app_comm_cons. f_equal. exact IH.
Qed.

Lemma readlines_app (c1 c2 : string) :
  complete c1 ->
  Text.readlines (c1 ++ c2) = (Text.readlines c1 ++ Text.readlines c2)%list.
Proof.
  intros [-> | (a & ->)]; [reflexivity|].
  unfold Text.readlines. rewrite string_app_assoc. apply lines_acc_app_newline.
Qed.

Lemma load_lines_app (l1 l2 : list string) sbz (n_lines n_tel : nat) :
  load_lines sbz n_lines n_tel (l1 ++ l2) =
  match load_lines sbz n_lines n_tel l1 with
  | (sbz', None) => (sbz', None)
  | (sbz', Some (n, m)) => load_lines sbz' n m l2
  end.
Proof.
  revert sbz n_lines n_tel. induction l1 as [|line l1 IH]; intros sbz n_lines n_tel.
  - reflexivity.
  - simpl. destruct (_ingest_line sbz line) as [sbz' [r|]]; [apply IH | reflexivity].
Qed.

Lemma tail_lines_series (lines : list string) sbz (touched : gset Z)
    (n_lines n_tel : nat) :
  fst (tail_lines sbz touched lines) = fst (load_lines sbz n_lines n_tel lines).
Proof.
  revert sbz touched n_lines n_tel.
  induction lines as [|line rest IH]; intros sbz touched n_lines n_tel.
  - reflexivity.
  - rewrite tail_lines_step. simpl.
    destruct (_ingest_line sbz line) as [sbz' [[z|]|]]; simpl.
    + apply IH.
    + destruct (zone_guess line); apply IH.
    + reflexivity.
Qed.

Lemma open_log_series (path content : string) (v : Viewer) :
  series_by_zone (fst (open_log path (Some content) v)) =
  fst (load_lines (reset_all (series_by_zone v)) 0 0 (Text.readlines content)).
Proof.
  unfold open_log.
  now destruct (load_lines (reset_all (series_by_zone v)) 0 0 (Text.readlines content))
    as [sbz [[n m]|]].
Qed.

Lemma utf8_valid_cons (b0 : ascii) (r0 : string) :
  Text.utf8_valid (String b0 r0) =
  if (Text.code b0 <? 128)%N then Text.utf8_valid r0
  else
    match r0 with
    | EmptyString => false
    | String b1 r1 =>
        if ((194 <=? Text.code b0) && (Text.code b0 <=? 223))%N
        then Text.is_continuation (Text.code b1) && Text.utf8_valid r1
        else
          match r1 with
          | EmptyString => false
          | String b2 r2 =>
              if ((224 <=? Text.code b0) && (Text.code b0 <=? 239))%N
              then Text.follows_lead (Text.code b0) (Text.code b1)
                   && Text.is_continuation (Text.code b2) && Text.utf8_valid r2
              else
                match r2 with
                | EmptyString => false
                | String b3 r3 =>
                    ((240 <=? Text.code b0) && (Text.code b0 <=? 244))%N
                    && Text.follows_lead (Text.code b0) (Text.code b1)
                    && Text.is_continuation (Text.code b2)
                    && Text.is_continuation (Text.code b3) && Text.utf8_valid r3
                end
          end
    end.
Proof. reflexivity. Qed.

(** Text that decodes, followed by text that decodes, decodes. *)
Lemma utf8_valid_app (a b : string) :
  Text.utf8_valid a = true -> Text.utf8_valid b = true ->
  Text.utf8_valid (a ++ b) = true.
Proof.
  intros Ha Hb. remember (String.length a) as n eqn:Hn. revert a Hn Ha.
  induction n as [n IH] using lt_wf_ind. intros a Hn Ha.
  assert (Hrec : forall r, String.length r < n -> Text.utf8_valid r = true ->
                           Text.utf8_valid (r ++ b) = true)
    by (intros r Hr Hv; exact (IH _ Hr r eq_refl Hv)).
  clear IH. subst n.
  destruct a as [|b0 r0]; [exact Hb|].
  rewrite string_app_cons, utf8_valid_cons. rewrite utf8_valid_cons in Ha.
  destruct (Text.code b0 <? 128)%N.
  { apply Hrec; [simpl; lia | exact Ha]. }
  destruct r0 as [|b1 r1]; [discriminate Ha|]. rewrite string_app_cons.
  destruct ((194 <=? Text.code b0) && (Text.code b0 <=? 223))%N.
  { apply andb_true_iff in Ha as [-> Ha]. apply Hrec; [simpl; lia | exact Ha]. }
  destruct r1 as [|b2 r2]; [discriminate Ha|]. rewrite string_app_cons.
  destruct ((224 <=? Text.code b0) && (Text.code b0 <=? 239))%N.
  { apply andb_true_iff in Ha as [-> Ha]. apply Hrec; [simpl; lia | exact Ha]. }
  destruct r2 as [|b3 r3]; [discriminate Ha|]. rewrite string_app_cons.
  apply andb_true_iff in Ha as [-> Ha]. apply Hrec; [simpl; lia | exact Ha].
Qed.

(** X18. Tailing loses nothing when the load ends at a line boundary and
    the bytes decode: if the file held [c1], empty or ending in a newline,
    when it was opened and holds [c1 ++ c2] at the next tick, [c1] and
    [c2] both UTF-8, then the whole file decodes and the zones after that
    tick are those a full load of [c1 ++ c2] gives. *)
Theorem tick_after_load_equals_load (path c1 c2 : string) (v : Viewer) :
  complete c1 ->
  Text.utf8_valid c1 = true ->
  Text.utf8_valid c2 = true ->
  let v1 := fst (open_log path (Some c1) v) in
  let v2 := fst (tick_on_bytes (c1 ++ c2) v1) in
  Text.utf8_valid (c1 ++ c2) = true /\
  series_by_zone v2 = series_by_zone (fst (open_log path (Some (c1 ++ c2)) v)).
Proof.
  intros Hc Hc1 Hc2. cbv zeta. split; [now apply utf8_valid_app|].
  rewrite (open_log_series path (c1 ++ c2)), (readlines_app _ _ Hc), load_lines_app.
  unfold open_log.
  destruct (load_lines (reset_all (series_by_zone v)) 0 0 (Text.readlines c1))
    as [sbz1 [[n m]|]]; [|reflexivity].
  rewrite tick_on_bytes_decodes;
    [|cbn [_tail_pos fst]; rewrite skip_app; exact Hc2].
  unfold _tail_tick.
  cbn [_tail_fp current_log_path _tail_pos series_by_zone fst snd].
  rewrite skip_app.
  destruct (Text.readlines c2) as [|l ls]; [reflexivity|].
  pose proof (tail_lines_series (l :: ls) sbz1 ∅ n m) as H.
  destruct (tail_lines sbz1 ∅ (l :: ls)) as [sbz2 touched]. exact H.
Qed.

(** ** Loading twice *)

Lemma zone_state_reset_all sbz z :
  keyed sbz -> zone_state (reset_all sbz) z = new_ZoneSeries z.
Proof.
  intros H. unfold zone_state, reset_all. rewrite lookup_fmap.
  destruct (sbz !! z) as [s|] eqn:E; simpl; [|reflexivity].
  unfold reset_zone, new_ZoneSeries. simpl. now rewrite (H z s E).
Qed.

Lemma keyed_load_lines (lines : list string) sbz (n_lines n_tel : nat) :
  keyed sbz -> keyed (fst (load_lines sbz n_lines n_tel lines)).
Proof.
  revert sbz n_lines n_tel.
  induction lines as [|line rest IH]; intros sbz n_lines n_tel H; [exact H|].
  simpl. pose proof (keyed_ingest sbz line H) as H'.
  destruct (_ingest_line sbz line) as [sbz' [r|]]; [now apply IH | exact H'].
Qed.

Lemma load_lines_zonewise (lines : list string) sbz sbz' (n_lines n_tel : nat) :
  (forall z, zone_state sbz z = zone_state sbz' z) ->
  forall z, zone_state (fst (load_lines sbz n_lines n_tel lines)) z =
            zone_state (fst (load_lines sbz' n_lines n_tel lines)) z.
Proof.
  revert sbz sbz' n_lines n_tel.
  induction lines as [|line rest IH]; intros sbz sbz' n_lines n_tel H; [exact H|].
  simpl.
  pose proof (ingest_outcome_of_line sbz sbz' line) as Ho.
  pose proof (fun z => ingest_zonewise sbz sbz' line z (H z)) as Hz.
  destruct (_ingest_line sbz line) as [sbz1 out1].
  destruct (_ingest_line sbz' line) as [sbz1' out1']. simpl in *. subst out1'.
  destruct out1 as [r|]; [now apply IH | exact Hz].
Qed.

(** The zones a load adds are fixed by the lines. *)
Lemma ingest_dom line :
  exists d : gset Z, forall sbz, dom (fst (_ingest_line sbz line)) = dom sbz ∪ d.
Proof.
  destruct (ingest_shape line) as [[H _] | (z & f & _ & _ & H)].
  - exists ∅. intros sbz. rewrite H. now rewrite union_empty_r_L.
  - exists {[z]}. intros sbz. rewrite H. apply set_eq. intros z'.
    rewrite elem_of_union, elem_of_singleton, !elem_of_dom.
    destruct (decide (z' = z)) as [->|Hne].
    + rewrite lookup_alter_eq, ensure_zone_lookup. simpl. split; [auto | eauto].
    + rewrite alter_ensure_other by exact Hne. tauto.
Qed.

Lemma load_lines_dom (lines : list string) (n_lines n_tel : nat) :
  exists d : gset Z,
    forall sbz, dom (fst (load_lines sbz n_lines n_tel lines)) = dom sbz ∪ d.
Proof.
  revert n_lines n_tel. induction lines as [|line rest IH]; intros n_lines n_tel.
  - exists ∅. intros sbz. simpl. now rewrite union_empty_r_L.
  - destruct (ingest_dom line) as [d1 Hd1].
    destruct (IH (S n_lines)
                (if Text.contains telemetry_marker line then S n_tel else n_tel))
      as [d2 Hd2].
    destruct (raises line) eqn:Hr.
    + exists d1. intros sbz. simpl.
      apply (raises_spec sbz) in Hr. specialize (Hd1 sbz).
      destruct (_ingest_line sbz line) as [sbz1 out]. simpl in *. now subst out.
    + exists (d1 ∪ d2). intros sbz. simpl.
      assert (Ho : snd (_ingest_line sbz line) <> Raises).
      { intros Ho. apply (raises_spec sbz) in Ho. congruence. }
      specialize (Hd1 sbz).
      destruct (_ingest_line sbz line) as [sbz1 [r|]]; simpl in *; [|now destruct Ho].
      rewrite Hd2, Hd1. now rewrite union_assoc_L.
Qed.

Lemma load_lines_again (lines : list string) sbz :
  keyed sbz ->
  load_lines (reset_all (fst (load_lines (reset_all sbz) 0 0 lines))) 0 0 lines =
  load_lines (reset_all sbz) 0 0 lines.
Proof.
  intros Hk.
  set (A := reset_all sbz).
  set (S1 := fst (load_lines A 0 0 lines)).
  set (B := reset_all S1).
  assert (Hk1 : keyed S1) by (apply keyed_load_lines; now apply keyed_reset_all).
  assert (Hsnd : snd (load_lines B 0 0 lines) = snd (load_lines A 0 0 lines))
    by now rewrite !load_lines_report.
  assert (Hz : forall z, zone_state (fst (load_lines B 0 0 lines)) z = zone_state S1 z).
  { apply load_lines_zonewise. intros z. unfold B, A.
    now rewrite !zone_state_reset_all. }
  assert (Hdom : dom (fst (load_lines B 0 0 lines)) = dom S1).
  { destruct (load_lines_dom lines 0 0) as [d Hd].
    rewrite Hd. unfold B, reset_all at 1. rewrite dom_fmap_L.
    unfold S1. rewrite Hd. now rewrite <- union_assoc_L, union_idemp_L. }
  assert (Hfst : fst (load_lines B 0 0 lines) = S1).
  { apply map_eq. intros z. specialize (Hz z). unfold zone_state in Hz.
    destruct (fst (load_lines B 0 0 lines) !! z) as [s2|] eqn:E2;
      destruct (S1 !! z) as [s1|] eqn:E1; try congruence.
    - apply not_elem_of_dom in E1. rewrite <- Hdom in E1.
      destruct E1. apply elem_of_dom. eauto.
    - apply not_elem_of_dom in E2. rewrite Hdom in E2.
      destruct E2. apply elem_of_dom. eauto. }
  destruct (load_lines B 0 0 lines) as [S2 r2].
  destruct (load_lines A 0 0 lines) as [S1' r1] eqn:EA.
  simpl in *. now subst.
Qed.

(** X19. Loading the same file twice gives what loading it once gives: the
    same zones with the same series and snapshot, the same report and the
    same tail cursor, also for the zones the first load discovered. *)
Theorem open_log_twice (path : string) (file : option string) (v : Viewer) :
  keyed (series_by_zone v) ->
  open_log path file (fst (open_log path file v)) = open_log path file v.
Proof.
  intros Hk. destruct file as [content|]; [|reflexivity].
  unfold open_log at 1. rewrite open_log_series.
  rewrite (load_lines_again _ _ Hk). reflexivity.
Qed.

(** ** The invariants through a load and a tick *)

Lemma keyed_tail_lines (lines : list string) sbz (touched : gset Z) :
  keyed sbz -> keyed (fst (tail_lines sbz touched lines)).
Proof.
  intros H. rewrite (tail_lines_series lines sbz touched 0 0).
  now apply keyed_load_lines.
Qed.

(** X21. A full load and a tick keep what ingestion keeps: after either,
    every record still sits under its own zone id and the two lists of
    every series still have one length, also when the load or the tick
    ends in an exception. *)
Theorem load_and_tick_keep_the_invariants (path : string) (file : option string)
    (content : string) (v : Viewer) :
  keyed (series_by_zone v) ->
  all_aligned (series_by_zone v) ->
  (keyed (series_by_zone (fst (open_log path file v))) /\
   all_aligned (series_by_zone (fst (open_log path file v)))) /\
  (keyed (series_by_zone (fst (_tail_tick content v))) /\
   all_aligned (series_by_zone (fst (_tail_tick content v)))).
Proof.
  intros Hk Ha. repeat split.
  - destruct file as [c|]; [|exact Hk].
    rewrite open_log_series. apply keyed_load_lines. now apply keyed_reset_all.
  - now apply all_aligned_open_log.
  - unfold _tail_tick.
    destruct (_tail_fp v); [|exact Hk].
    destruct (current_log_path v); [|exact Hk].
    destruct (Text.readlines (Text.skip (_tail_pos v) content)) as [|l ls]; [exact Hk|].
    pose proof (keyed_tail_lines (l :: ls) (series_by_zone v) ∅ Hk) as HT.
    now destruct (tail_lines (series_by_zone v) ∅ (l :: ls)).
  - now apply all_aligned_tail_tick.
Qed.

End MoreProperties.


(** ** The newest log *)

Section NewestLog.

Context {path mtime : Type} (lt : mtime -> mtime -> bool).

Hypothesis lt_asym : forall a b, lt a b = true -> lt b a = false.
Hypothesis lt_negtrans :
  forall a b c, lt a b = false -> lt b c = false -> lt a c = false.

Lemma sort_newest_first_head (c : path * mtime) (l : list (path * mtime)) :
  exists before h after rest,
    sort_newest_first lt (c :: l) = h :: rest /\
    (c :: l = before ++ h :: after)%list /\
    (forall d, In d before -> lt (snd d) (snd h) = true) /\
    (forall d, In d after -> lt (snd h) (snd d) = false).
Proof.
  revert c. induction l as [|c' l IH]; intros c.
  - exists [], c, [], []. simpl. repeat split; intros d [].
  - destruct (IH c') as (before & h & after & rest & Hs & Hl & Hb & Ha).
    unfold sort_newest_first in *. simpl fold_right in *. rewrite Hs. simpl.
    destruct (lt (snd c) (snd h)) eqn:Hlt.
    + exists (c :: before), h, after, (insert_newest_first lt c rest).
      repeat split; auto.
      * simpl. now rewrite Hl.
      * intros d [<- | Hd]; auto.
    + exists [], c, (c' :: l), (h :: rest).
      split; [reflexivity|]. split; [reflexivity|]. split; [intros d []|].
      intros d Hd. rewrite Hl in Hd. apply in_app_or in Hd as [Hd | [<- | Hd]].
      * apply (lt_negtrans _ (snd h)); [exact Hlt|]. apply lt_asym. now apply Hb.
      * exact Hlt.
      * apply (lt_negtrans _ (snd h)); [exact Hlt | now apply Ha].
Qed.

(** X20. [find_most_recent_log] returns nothing only when no file matches;
    otherwise it returns the first of the candidates than which none is
    newer: every candidate listed before it is older, and none listed after
    it is newer. *)
Theorem find_most_recent_log_newest (candidates : list (path * mtime)) :
  match find_most_recent_log lt candidates with
  | None => candidates = []
  | Some p =>
      exists before m after,
        candidates = (before ++ (p, m) :: after)%list /\
        (forall d, In d before -> lt (snd d) m = true) /\
        (forall d, In d after -> lt m (snd d) = false)
  end.
Proof.
  destruct candidates as [|c l]; [reflexivity|].
  destruct (sort_newest_first_head c l) as (before & h & after & rest & Hs & Hl & Hb & Ha).
  unfold find_most_recent_log. rewrite Hs.
  exists before, (snd h), after. destruct h as [p m]. auto.
Qed.

End NewestLog.




(** * The properties on concrete log lines

    From here on the runtime is [RefRuntime.runtime]. *)

#[local] Existing Instance RefRuntime.runtime.

Lemma tailing_viewer_is_tailing : tailing tailing_viewer.
Proof. split; discriminate. Qed.

(** ** Telemetry without a timestamp *)

(** C1, as stated, fails: [untimed_line] is a telemetry line for zone 1
    with no timestamp field; after it the snapshot of zone 1 still has no
    pv, no sp_abs and the placeholder mode, where the line has 72.5, 75.0
    and [AUTO]. *)
Lemma untimed_telemetry_leaves_snapshot :
  let s' := zone_state (fst (_ingest_line initial_series untimed_line)) 1 in
  telemetry_message untimed_line untimed_obj 1 /\
  line_dt untimed_obj = None /\
  (dict_get "pv_c" untimed_obj = PFloat 72.5 /\ last_pv s' = PNone) /\
  (dict_get "sp_abs_c" untimed_obj = PFloat 75 /\ last_sp s' = PNone) /\
  (dict_get "mode" untimed_obj = PStr "AUTO" /\ last_mode s' = placeholder).
Proof. cbv zeta. repeat split; run_model. Qed.

Lemma telemetry_without_timestamp_witness :
  let sbz' := fst (_ingest_line initial_series untimed_line) in
  snd (_ingest_line initial_series untimed_line) = Returns (Some 1%Z) /\
  sbz' = _ensure_zone 1 initial_series /\
  zone_state sbz' 1 = zone_state initial_series 1 /\
  (forall z', z' <> 1%Z -> sbz' !! z' = initial_series !! z').
Proof.
  apply (telemetry_without_timestamp_is_dropped initial_series untimed_line untimed_obj 1).
  - repeat split; vm_compute; reflexivity.
  - vm_compute; reflexivity.
Defined.

(** ** A NaN process value *)

Lemma nan_pv_witness :
  let s := zone_state initial_series 2 in
  let s' := zone_state (fst (_ingest_line initial_series nan_line)) 2 in
  (t s' = t s /\ pv s' = pv s) /\
  last_pv s' = dict_get "pv_c" nan_obj /\
  last_sp s' = dict_get "sp_abs_c" nan_obj /\
  last_out s' = dict_get "output_pct" nan_obj /\
  last_method s' = dict_get_or "method" placeholder nan_obj /\
  last_mode s' = dict_get_or "mode" placeholder nan_obj /\
  last_autotune s' = dict_get "autotune" nan_obj.
Proof.
  apply (nan_pv_updates_snapshot_only (rt := RefRuntime.runtime) initial_series nan_line nan_obj 2
           (RefRuntime.Instant 1700000000)).
  - repeat split; vm_compute; reflexivity.
  - vm_compute; reflexivity.
  - vm_compute; reflexivity.
Defined.

Example nan_pv_snapshot :
  let s' := zone_state (fst (_ingest_line initial_series nan_line)) 2 in
  pv s' = [] /\ last_pv s' = PFloat nan /\ last_sp s' = PFloat 75 /\
  last_out s' = PNone /\ last_method s' = PStr "PID" /\
  last_mode s' = placeholder /\ last_autotune s' = PBool true.
Proof. cbv zeta. repeat split; run_model. Qed.

(** ** The alias chain of the autotune setpoint *)

Section Aliases.

Context {rt : PyRuntime}.

Lemma telemetry_sp_first_truthy (obj : list (string * PyVal)) (prev : PyVal) :
  truthy (dict_get "autotune_sp_c" obj) = true ->
  telemetry_sp obj prev = dict_get "autotune_sp_c" obj.
Proof. unfold telemetry_sp, py_or. now intros ->. Qed.

(** A first alias of 0 is passed over like an absent one. *)
Lemma telemetry_sp_first_zero (obj : list (string * PyVal)) (prev : PyVal) :
  dict_get "autotune_sp_c" obj = PInt 0 ->
  telemetry_sp obj prev =
  py_or (dict_get "autotune_setpoint_c" obj)
    (py_or (dict_get "autotune_setpoint" obj) prev).
Proof. unfold telemetry_sp. now intros ->. Qed.

End Aliases.

(** C2, on the code. With [autotune_sp_c] 5 and [autotune_setpoint] 9 the
    stored setpoint is 5. With [autotune_sp_c] 0 it is not 0: the [or]
    chain passes over the 0 and stores the next alias, 9; with no other
    alias it keeps the previous value, 80.0 after the scenario's event, on
    the telemetry path and on the event path alike. *)
Theorem zero_autotune_setpoint_is_passed_over :
  let stored (lines : list string) :=
    last_autotune_sp
      (zone_state (run_all initial_series (List.map Ingest lines)) 1) in
  stored [aliases_5_9_line] = PInt 5 /\
  stored [aliases_0_9_line] = PInt 9 /\
  stored [scenario_line3; alias_0_line] = PFloat 80 /\
  stored [scenario_line3; alias_0_event] = PFloat 80 /\
  stored [alias_0_line] = PNone.
Proof. cbv zeta. repeat split; run_model. Qed.

(** ** Lines that are no message *)

(** C3, as stated, fails: [cut_line] is malformed JSON, and the full load
    of a file that holds only it reports one line and one telemetry line. *)
Lemma malformed_line_is_counted :
  decoded cut_line = None /\
  Text.contains telemetry_marker cut_line = true /\
  snd (open_log "cn616a_log_1.jsonl" (Some (cut_line ++ Text.newline)) initial_viewer)
  = Opened 1 1.
Proof. repeat split; run_model. Qed.

Lemma unrecognised_line_witness :
  _ingest_line initial_series cut_line = (initial_series, Returns None) /\
  load_lines initial_series 0 0 [cut_line] =
  load_lines initial_series 1
    (if Text.contains telemetry_marker cut_line then 1 else 0) [].
Proof.
  apply (unrecognised_line_changes_no_zone initial_series cut_line 0 0 []).
  left. vm_compute; reflexivity.
Defined.

(** A line that decodes to something other than an object is another
    matter: [_ingest_line] raises on it and the full load stops there. *)
Example non_object_line_stops_the_load :
  decoded array_line = Some (PList [PInt 1]) /\
  snd (_ingest_line initial_series array_line) = Raises /\
  snd (open_log "cn616a_log_1.jsonl" (Some (array_line ++ Text.newline)) initial_viewer)
  = FailedToRead.
Proof. repeat split; run_model. Qed.

(** ** The cursor of the tail *)

(** C4, as stated, fails: the writer leaves the first scenario line in
    two flushes and a tick runs in between. The fragment decodes, so the
    first tick moves the cursor to its end, the second reads only the rest
    of the line, and the sample never reaches zone 1; a full load of the
    same file has it. *)
Lemma tail_cursor_passes_fragment :
  let v1 := fst (tick_on_bytes first_flush tailing_viewer) in
  let v2 := fst (tick_on_bytes (first_flush ++ second_flush) v1) in
  let loaded := fst (open_log "cn616a_log_1.jsonl"
                       (Some (first_flush ++ second_flush)) initial_viewer) in
  Text.contains Text.newline first_flush = false /\
  Text.utf8_valid first_flush = true /\
  _tail_pos v1 = String.length first_flush /\
  _tail_pos v2 = String.length (first_flush ++ second_flush) /\
  pv (zone_state (series_by_zone v2) 1) = [] /\
  pv (zone_state (series_by_zone loaded) 1) = [72.5%float].
Proof. cbv zeta. repeat split; run_model. Qed.

Lemma tail_tick_cursor_witness :
  _tail_pos (fst (tick_on_bytes first_flush tailing_viewer)) = String.length first_flush /\
  tick_on_bytes flush_cut_in_character tailing_viewer = (tailing_viewer, None).
Proof.
  split.
  - apply (proj1 (tail_tick_cursor_goes_to_end_of_file first_flush tailing_viewer
                    ltac:(split; discriminate))).
    + vm_compute. lia.
    + vm_compute. reflexivity.
  - apply (proj1 (proj2 (tail_tick_cursor_goes_to_end_of_file
                           flush_cut_in_character tailing_viewer
                           ltac:(split; discriminate)))).
    vm_compute. reflexivity.
Defined.

(** The one fragment that does wait: a flush that ends inside a
    character. The tick that meets it raises in its read and keeps the
    cursor; the tick after the rest is written reads the whole line. *)
Example tick_reads_again_bytes_cut_in_character :
  let v1 := fst (tick_on_bytes flush_cut_in_character tailing_viewer) in
  let grown := (flush_cut_in_character ++ flush_of_the_rest)%string in
  let v2 := fst (tick_on_bytes grown v1) in
  Text.utf8_valid flush_cut_in_character = false /\
  snd (tick_on_bytes flush_cut_in_character tailing_viewer) = None /\
  _tail_pos v1 = 0 /\
  snd (tick_on_bytes grown v1) = Some {[2%Z]} /\
  _tail_pos v2 = String.length grown /\
  pv (zone_state (series_by_zone v2) 2) = [72.5%float] /\
  last_method (zone_state (series_by_zone v2) 2)
  = PStr (Text.bytes [99; 97; 102; 195; 169]%N).
Proof. cbv zeta. repeat split; run_model. Qed.

(** ** Event lines *)

Lemma event_witness :
  let s := zone_state initial_series 1 in
  let sbz' := fst (_ingest_line initial_series scenario_line3) in
  let s' := zone_state sbz' 1 in
  (t s' = t s /\ pv s' = pv s /\
   last_pv s' = last_pv s /\ last_sp s' = last_sp s /\ last_out s' = last_out s /\
   last_method s' = last_method s /\ last_mode s' = last_mode s /\
   last_autotune s' = last_autotune s) /\
  (forall z', z' <> 1%Z -> sbz' !! z' = initial_series !! z') /\
  (last_autotune_sp s' = last_autotune_sp s \/
   exists k, In k event_aliases /\
     dict_lookup k scenario_obj3 = Some (last_autotune_sp s') /\
     last_autotune_sp s' <> PNone) /\
  ((forall k, In k event_aliases -> dict_get k scenario_obj3 = PNone) ->
   last_autotune_sp s' = last_autotune_sp s).
Proof.
  apply (event_changes_only_autotune_setpoint initial_series scenario_line3 scenario_obj3 1).
  repeat split; vm_compute; reflexivity.
Defined.

(** ** The zones a tick reports *)

(** C9, as stated, fails: [zoneless_line] is a telemetry line that has no
    zone; [_ingest_line] returns no zone for it, its text has the marker
    ["type": "telemetry"], and the tick that reads it reports no zone at
    all. Nor does the tick that reads a telemetry line cut before its
    zone. And the tick that reads [cut_line], where the scan does find
    zone 3, and then a line that makes [_ingest_line] raise, ends in
    [Tailing error] and reports nothing. *)
Lemma telemetry_text_without_zone_marks_nothing :
  (decoded zoneless_line = Some (PDict zoneless_obj) /\
   eq_str (dict_get "type" zoneless_obj) "telemetry" = true /\
   isinstance_int (dict_get "zone" zoneless_obj) = None /\
   snd (_ingest_line (series_by_zone tailing_viewer) zoneless_line) = Returns None /\
   Text.contains telemetry_marker zoneless_line = true /\
   snd (_tail_tick (zoneless_line ++ Text.newline) tailing_viewer) = Some ∅) /\
  (decoded cut_before_zone = None /\
   Text.contains telemetry_marker cut_before_zone = true /\
   snd (_tail_tick cut_before_zone tailing_viewer) = Some ∅) /\
  (decoded cut_line = None /\
   zone_guess cut_line = Some 3%Z /\
   snd (_tail_tick (cut_line ++ Text.newline ++ array_line ++ Text.newline)
          tailing_viewer) = None).
Proof. repeat split; run_model. Qed.

Lemma tail_tick_guess_witness :
  exists touched : gset Z,
    snd (_tail_tick cut_line tailing_viewer) = Some touched /\ 3%Z ∈ touched.
Proof.
  exists {[3%Z]}.
  assert (H : snd (_tail_tick cut_line tailing_viewer) = Some {[3%Z]})
    by (vm_compute; reflexivity).
  split; [exact H|].
  apply (tail_tick_reports_guessed_zone cut_line tailing_viewer cut_line 3 {[3%Z]}).
  - split; discriminate.
  - vm_compute. left. reflexivity.
  - vm_compute; reflexivity.
  - vm_compute; reflexivity.
  - exact H.
Defined.

(** ** The two lists of a trace *)

Lemma trace_lists_witness :
  all_aligned
    (run_all initial_series
       [Ingest scenario_line1; Ingest nan_line; ClearTrace 1; Ingest scenario_line2;
        Ingest scenario_line3; ResetAll; Ingest untimed_line]).
Proof.
  apply trace_lists_stay_aligned.
  intros z s H. apply elem_of_list_to_map_2 in H.
  apply list_elem_of_In in H. simpl in H.
  repeat (destruct H as [[= <- <-] | H]; [reflexivity|]).
  destruct H.
Defined.

(** ** The scenario *)

Lemma scenario_witness :
  let s := zone_state
             (run_all initial_series
                [Ingest scenario_line1; Ingest scenario_line2; Ingest scenario_line3]) 1 in
  t s = [RefRuntime.Instant 1700000000; RefRuntime.Instant 1700000010] /\
  pv s = [72.5%float; 73.1%float] /\
  last_pv s = PFloat 73.1 /\
  last_autotune_sp s = PFloat 80.
Proof.
  apply (scenario_result (rt := RefRuntime.runtime) initial_series
           (RefRuntime.Instant 1700000000) (RefRuntime.Instant 1700000010)).
  - reflexivity.
  - vm_compute; reflexivity.
  - vm_compute; reflexivity.
  - vm_compute; reflexivity.
  - vm_compute; reflexivity.
  - vm_compute; reflexivity.
Defined.

(** * The further properties on concrete log lines *)

Lemma decoded_scenario_line1 : decoded scenario_line1 = Some (PDict scenario_obj1).
Proof. run_model. Qed.

Lemma decoded_scenario_line3 : decoded scenario_line3 = Some (PDict scenario_obj3).
Proof. run_model. Qed.

Lemma ingest_leaves_other_zones_witness :
  fst (_ingest_line initial_series scenario_line1) !! 2%Z = initial_series !! 2%Z.
Proof.
  apply (ingest_leaves_other_zones initial_series scenario_line1 2).
  intros (obj & H & _ & Hz). rewrite decoded_scenario_line1 in H.
  injection H as <-. vm_compute in Hz. discriminate.
Defined.

Lemma ingest_acts_zone_by_zone_witness :
  zone_state (run_all initial_series (List.map Ingest [scenario_line1; zone_9_line])) 1 =
  zone_state (run_all ∅ (List.map Ingest [scenario_line1; zone_9_line])) 1.
Proof.
  apply (ingest_acts_zone_by_zone [scenario_line1; zone_9_line] initial_series ∅ 1).
  reflexivity.
Defined.

Lemma series_in_arrival_order_witness :
  let s := zone_state initial_series 1 in
  let s' := zone_state
              (run_all initial_series
                 (List.map Ingest [scenario_line1; scenario_line3; scenario_line2])) 1 in
  t s' = (t s ++ [RefRuntime.Instant 1700000000; RefRuntime.Instant 1700000010])%list /\
  pv s' = (pv s ++ [72.5%float; 73.1%float])%list.
Proof.
  apply (series_is_the_samples_in_arrival_order (rt := RefRuntime.runtime)
           [scenario_line1; scenario_line3; scenario_line2]
           [Some (RefRuntime.Instant 1700000000, 72.5%float); None;
            Some (RefRuntime.Instant 1700000010, 73.1%float)]
           initial_series 1).
  repeat constructor.
  - exists scenario_obj1. repeat split; vm_compute; reflexivity.
  - intros dt x (obj & (H & Htel & _) & _). rewrite decoded_scenario_line3 in H.
    injection H as <-. vm_compute in Htel. discriminate.
  - exists scenario_obj2. repeat split; vm_compute; reflexivity.
Defined.

Lemma setpoint_never_absent_witness :
  last_autotune_sp
    (zone_state
       (run_all (run_all initial_series [Ingest scenario_line3])
          (List.map Ingest [alias_0_event; alias_0_line; untimed_line; nan_line])) 1)
  <> PNone.
Proof.
  apply (setpoint_never_becomes_absent
           [alias_0_event; alias_0_line; untimed_line; nan_line]
           (run_all initial_series [Ingest scenario_line3]) 1).
  vm_compute. discriminate.
Defined.

Lemma telemetry_first_truthy_alias_witness :
  last_autotune_sp (zone_state (fst (_ingest_line initial_series aliases_0_9_line)) 1) =
  match List.find truthy (telemetry_alias_values aliases_0_9_obj) with
  | Some v => v
  | None => last_autotune_sp (zone_state initial_series 1)
  end.
Proof.
  apply (telemetry_stores_first_truthy_alias (rt := RefRuntime.runtime)
           initial_series aliases_0_9_line aliases_0_9_obj 1
           (RefRuntime.Instant 1700000000) (Some 72.5%float)).
  - repeat split; vm_compute; reflexivity.
  - vm_compute; reflexivity.
  - vm_compute; reflexivity.
Defined.

Lemma event_first_truthy_alias_witness :
  last_autotune_sp (zone_state (fst (_ingest_line initial_series setpoint_0_event)) 1) =
  match List.find truthy (event_alias_values setpoint_0_obj) with
  | Some v => v
  | None =>
      if is_None (dict_get "setpoint" setpoint_0_obj)
      then last_autotune_sp (zone_state initial_series 1)
      else dict_get "setpoint" setpoint_0_obj
  end.
Proof.
  apply (event_stores_first_truthy_alias initial_series setpoint_0_event setpoint_0_obj 1).
  repeat split; vm_compute; reflexivity.
Defined.

(** An event stores 0 from [setpoint], and from no alias before it. *)
Example event_setpoint_zero_is_stored :
  let stored (line : string) :=
    last_autotune_sp (zone_state (fst (_ingest_line initial_series line)) 1) in
  stored setpoint_0_event = PInt 0 /\ stored alias_0_event = PNone.
Proof. cbv zeta. split; run_model. Qed.

Lemma records_under_their_zone_witness :
  keyed (run_all initial_series
           [Ingest zone_9_line; ClearTrace 9; Ingest scenario_line3; ResetAll;
            Ingest scenario_line1]).
Proof.
  apply records_stay_under_their_zone.
  intros z s H. apply elem_of_list_to_map_2 in H.
  apply list_elem_of_In in H. simpl in H.
  repeat (destruct H as [[= <- <-] | H]; [reflexivity|]).
  destruct H.
Defined.


Lemma failed_load_witness :
  let v' := fst (open_log "cn616a_log_2.jsonl"
                   (Some (scenario_line1 ++ Text.newline ++ bad_pv_line ++ Text.newline))
                   tailing_viewer) in
  _tail_fp v' = None /\ _tail_tick small_log v' = (v', Some ∅).
Proof.
  apply (failed_load_stops_tailing "cn616a_log_2.jsonl"
           (Some (scenario_line1 ++ Text.newline ++ bad_pv_line ++ Text.newline))
           tailing_viewer small_log).
  vm_compute; reflexivity.
Defined.

Lemma tick_after_load_witness :
  let v' := fst (open_log "cn616a_log_1.jsonl" (Some small_log) initial_viewer) in
  tailing v' /\
  _tail_pos v' = String.length small_log /\
  _tail_tick small_log v' = (v', Some ∅).
Proof.
  apply (tick_after_load_reads_nothing "cn616a_log_1.jsonl" small_log initial_viewer 4 1).
  vm_compute; reflexivity.
Defined.

Lemma tick_reports_exactly_witness :
  3%Z ∈ ({[1%Z; 3%Z]} : gset Z) <->
  exists line,
    In line (Text.readlines
               (Text.skip (_tail_pos tailing_viewer)
                  (scenario_line1 ++ Text.newline ++ cut_line))) /\
    (snd (_ingest_line (series_by_zone tailing_viewer) line) = Returns (Some 3%Z) \/
     (snd (_ingest_line (series_by_zone tailing_viewer) line) = Returns None /\
      zone_guess line = Some 3%Z)).
Proof.
  apply (tick_reports_exactly (scenario_line1 ++ Text.newline ++ cut_line)
           tailing_viewer {[1%Z; 3%Z]}).
  - split; discriminate.
  - vm_compute; reflexivity.
Defined.

Lemma tick_after_load_equals_load_witness :
  let c1 := (scenario_line1 ++ Text.newline)%string in
  let c2 := (scenario_line2 ++ Text.newline ++ first_flush)%string in
  let v1 := fst (open_log "cn616a_log_1.jsonl" (Some c1) initial_viewer) in
  let v2 := fst (tick_on_bytes (c1 ++ c2) v1) in
  series_by_zone v2 =
  series_by_zone (fst (open_log "cn616a_log_1.jsonl" (Some (c1 ++ c2)) initial_viewer)).
Proof.
  refine (proj2 (tick_after_load_equals_load "cn616a_log_1.jsonl"
           (scenario_line1 ++ Text.newline)
           (scenario_line2 ++ Text.newline ++ first_flush) initial_viewer _ _ _)).
  - right. exists scenario_line1. reflexivity.
  - vm_compute. reflexivity.
  - vm_compute. reflexivity.
Defined.

(** Without the decoding the two differ: new bytes that hold a whole line
    and then end inside a character make the tick's read raise, and the
    tick ingests nothing, not even the whole line. *)
Example tick_on_bytes_that_do_not_decode :
  let c1 := (scenario_line1 ++ Text.newline)%string in
  let c2 := (scenario_line2 ++ Text.newline ++ flush_cut_in_character)%string in
  let v1 := fst (open_log "cn616a_log_1.jsonl" (Some c1) initial_viewer) in
  Text.utf8_valid c2 = false /\
  snd (tick_on_bytes (c1 ++ c2) v1) = None /\
  _tail_pos (fst (tick_on_bytes (c1 ++ c2) v1)) = String.length c1 /\
  pv (zone_state (series_by_zone (fst (tick_on_bytes (c1 ++ c2) v1))) 1) = [72.5%float].
Proof. cbv zeta. repeat split; run_model. Qed.

(** The loop of a full load on three lines, the second of which raises. *)
Example load_loop_on_a_raising_line :
  until_raise [scenario_line1; array_line; scenario_line2] = [scenario_line1; array_line] /\
  snd (load_lines initial_series 0 0 [scenario_line1; array_line; scenario_line2]) = None /\
  pv (zone_state (fst (load_lines initial_series 0 0
                         [scenario_line1; array_line; scenario_line2])) 1)
  = [72.5%float].
Proof. repeat split; run_model. Qed.

Lemma open_log_twice_witness :
  open_log "cn616a_log_1.jsonl" (Some small_log)
    (fst (open_log "cn616a_log_1.jsonl" (Some small_log) initial_viewer)) =
  open_log "cn616a_log_1.jsonl" (Some small_log) initial_viewer.
Proof.
  apply open_log_twice.
  intros z s H. apply elem_of_list_to_map_2 in H.
  apply list_elem_of_In in H. simpl in H.
  repeat (destruct H as [[= <- <-] | H]; [reflexivity|]).
  destruct H.
Defined.

Lemma load_and_tick_invariants_witness :
  (keyed (series_by_zone (fst (open_log "cn616a_log_1.jsonl" (Some small_log) initial_viewer))) /\
   all_aligned
     (series_by_zone (fst (open_log "cn616a_log_1.jsonl" (Some small_log) initial_viewer)))) /\
  (keyed (series_by_zone (fst (_tail_tick small_log initial_viewer))) /\
   all_aligned (series_by_zone (fst (_tail_tick small_log initial_viewer)))).
Proof.
  apply load_and_tick_keep_the_invariants.
  - intros z s H. apply elem_of_list_to_map_2 in H.
    apply list_elem_of_In in H. simpl in H.
    repeat (destruct H as [[= <- <-] | H]; [reflexivity|]).
    destruct H.
  - intros z s H. apply elem_of_list_to_map_2 in H.
    apply list_elem_of_In in H. simpl in H.
    repeat (destruct H as [[= <- <-] | H]; [reflexivity|]).
    destruct H.
Defined.

(** The small log on the reference runtime: four lines, one of them with
    the marker (the scenario lines have no space after the colon), zone 9
    discovered. *)
Example small_log_report :
  snd (open_log "cn616a_log_1.jsonl" (Some small_log) initial_viewer) = Opened 4 1 /\
  9%Z ∈ dom (series_by_zone
               (fst (open_log "cn616a_log_1.jsonl" (Some small_log) initial_viewer))).
Proof. split; [run_model | now vm_compute]. Qed.

Lemma find_most_recent_log_witness :
  exists before m after,
    three_logs = (before ++ ("cn616a_log_b.jsonl", m) :: after)%list /\
    (forall d, In d before -> Z.ltb (snd d) m = true) /\
    (forall d, In d after -> Z.ltb m (snd d) = false).
Proof.
  apply (find_most_recent_log_newest Z.ltb
           ltac:(intros a b H; apply Z.ltb_lt in H; apply Z.ltb_ge; lia)
           ltac:(intros a b c H1 H2; apply Z.ltb_ge in H1, H2; apply Z.ltb_ge; lia)
           three_logs).
Defined.
